(** * Hauge Restaurant API: validation, authentication and user/post routes

    A shallow embedding of the request pipeline of the Express application:

    - [Json]: request and response bodies, as [express.json()] parses them
      and [res.json] sends them;
    - [JsNumber]: the [Number(...)] conversion applied to route parameters;
    - [Zod]: the schema combinators the validators are built from;
    - [UserValidation]: [validateUserId], [validateRequiredUserData],
      [validatePartialUserData] (middleware/user-validation);
    - [Jwt]: [generateToken] and [verifyToken] (utils/jwt.ts);
    - [AuthValidation]: [validateLogin] and [authenticateToken]
      (middleware/auth-validation.ts);
    - [Storage]: the MySQL pool, on the statements the routes issue;
    - [Users], [Posts]: the routes of routes/users.ts and routes/posts.ts.

    Strings are sequences of code units below 256 (one [ascii] per unit),
    so [String.length] is the [length] property that zod's [min] and [max]
    compare; a text holding a code unit from 256 on (the line separators
    U+2028 and U+2029, a surrogate) is outside the model. *)

From Stdlib Require Import ZArith QArith List String Ascii Bool Lia.
From Stdlib Require Import Sorting.Sorted Sorting.Permutation DecimalString DecimalZ.
Import ListNotations.

#[local] Set Warnings "-register-all".

Local Open Scope string_scope.
Local Open Scope Z_scope.

(** ** JSON values *)

Module Json.

(** A parsed JSON value. An object is the list of its own properties, each
    key once, looked up by key. *)
Inductive json : Type :=
| JNull
| JBool (b : bool)
| JNum (n : Q)
| JStr (s : string)
| JArr (items : list json)
| JObj (fields : list (string * json)).

(** [o[key]]: [None] is JavaScript's [undefined]. *)
Fixpoint assoc (key : string) (fields : list (string * json)) : option json :=
  match fields with
  | [] => None
  | (k, v) :: rest => if String.eqb k key then Some v else assoc key rest
  end.

Definition get (key : string) (v : json) : option json :=
  match v with
  | JObj fields => assoc key fields
  | _ => None
  end.

(** Whether the object has the property at all. *)
Definition has_field (key : string) (v : json) : bool :=
  match get key v with Some _ => true | None => false end.

(** JavaScript truthiness of a property read. *)
Definition truthy (v : option json) : bool :=
  match v with
  | None => false
  | Some JNull => false
  | Some (JBool b) => b
  | Some (JNum n) => negb (Qeq_bool n 0)
  | Some (JStr s) => negb (String.eqb s "")
  | Some (JArr _) => true
  | Some (JObj _) => true
  end.

(** The name zod's messages give to the type of a rejected input. *)
Definition parsedType (v : option json) : string :=
  match v with
  | None => "undefined"
  | Some JNull => "null"
  | Some (JBool _) => "boolean"
  | Some (JNum _) => "number"
  | Some (JStr _) => "string"
  | Some (JArr _) => "array"
  | Some (JObj _) => "object"
  end.

End Json.
Export Json.

(** ** Character classes *)

Module Chars.

Definition code (c : ascii) : Z := Z.of_N (N_of_ascii c).

Definition is_digit (c : ascii) : bool := (48 <=? code c) && (code c <=? 57).
Definition is_lower (c : ascii) : bool := (97 <=? code c) && (code c <=? 122).
Definition is_upper (c : ascii) : bool := (65 <=? code c) && (code c <=? 90).
Definition is_alpha (c : ascii) : bool := is_lower c || is_upper c.
Definition is_alnum (c : ascii) : bool := is_alpha c || is_digit c.

Definition is_char (d : ascii) (c : ascii) : bool := Ascii.eqb c d.

Fixpoint one_of (set : string) (c : ascii) : bool :=
  match set with
  | EmptyString => false
  | String d rest => Ascii.eqb c d || one_of rest c
  end.

Fixpoint all (p : ascii -> bool) (s : string) : bool :=
  match s with
  | EmptyString => true
  | String c rest => p c && all p rest
  end.

(** [s.startsWith(prefix)] *)
Fixpoint startsWith (prefix s : string) : bool :=
  match prefix, s with
  | EmptyString, _ => true
  | String p prefix', String c s' => Ascii.eqb p c && startsWith prefix' s'
  | String _ _, EmptyString => false
  end.

(** [s.substring(n)] for [0 <= n]. *)
Fixpoint substring_from (n : nat) (s : string) : string :=
  match n, s with
  | O, _ => s
  | S n', String _ s' => substring_from n' s'
  | S _, EmptyString => EmptyString
  end.

(** [parts.join(sep)] *)
Fixpoint join (sep : string) (parts : list string) : string :=
  match parts with
  | [] => ""
  | [p] => p
  | p :: rest => p ++ sep ++ join sep rest
  end.

(** The text before the first [sep] and the text after it. *)
Fixpoint split_first (sep : ascii) (s : string) : option (string * string) :=
  match s with
  | EmptyString => None
  | String c rest =>
      if Ascii.eqb c sep then Some (EmptyString, rest)
      else match split_first sep rest with
           | Some (a, b) => Some (String c a, b)
           | None => None
           end
  end.

(** The pieces of [s] between occurrences of [sep]. *)
Fixpoint split_all (sep : ascii) (s : string) : list string :=
  match s with
  | EmptyString => [EmptyString]
  | String c rest =>
      if Ascii.eqb c sep then EmptyString :: split_all sep rest
      else match split_all sep rest with
           | p :: ps => String c p :: ps
           | [] => [String c EmptyString]
           end
  end.

Fixpoint last_char (s : string) : option ascii :=
  match s with
  | EmptyString => None
  | String c EmptyString => Some c
  | String _ rest => last_char rest
  end.

(** Whether [s] holds two consecutive dots. *)
Fixpoint has_dotdot (s : string) : bool :=
  match s with
  | String "." (String "." _ as rest) => true
  | String _ rest => has_dotdot rest
  | EmptyString => false
  end.

End Chars.

(** ** The zod combinators *)

Module Zod.
Import Chars.

(** [safeParse]'s outcome: the issues' messages in order, none on success. *)
Definition issues := list string.

Definition invalid_type (expected : string) (v : option json) : string :=
  "Invalid input: expected " ++ expected ++ ", received " ++ parsedType v.

(** A check on a string schema: [.min(n, msg)], [.max(n, msg)],
    [.regex(re, msg)]. *)
Inductive check : Type :=
| min (n : nat) (msg : string)
| max (n : nat) (msg : string)
| regex (matches : string -> bool) (msg : string).

(** The check on a string. *)
Definition check_string (c : check) (s : string) : issues :=
  match c with
  | min n msg => if (String.length s <? n)%nat then [msg] else []
  | max n msg => if (n <? String.length s)%nat then [msg] else []
  | regex matches msg => if matches s then [] else [msg]
  end.

(** The length checks look at the [length] of whatever value has one, so
    they also run on an array; a pattern check is skipped once the type has
    failed. *)
Definition check_length (c : check) (len : nat) : issues :=
  match c with
  | min n msg => if (len <? n)%nat then [msg] else []
  | max n msg => if (n <? len)%nat then [msg] else []
  | regex _ _ => []
  end.

(** [z.string(msg?)] followed by its checks: on a string all of them run;
    any other value gets the type message, an array the messages of the
    length checks after it. (An object with a property of its own named
    [length] is not modelled.) *)
Definition z_string (type_msg : option string) (checks : list check)
  (v : option json) : issues :=
  match v with
  | Some (JStr s) => flat_map (fun c => check_string c s) checks
  | _ =>
      match type_msg with
      | Some m => m
      | None => invalid_type "string" v
      end
      :: match v with
         | Some (JArr items) =>
             flat_map (fun c => check_length c (List.length items)) checks
         | _ => []
         end
  end.

(** A domain label but the last: [[A-Za-z0-9][A-Za-z0-9\-]*]. *)
Definition domain_label (l : string) : bool :=
  match l with
  | EmptyString => false
  | String c rest => is_alnum c && all (fun d => is_alnum d || is_char "-" d) rest
  end.

(** The last label: [[A-Za-z]{2,}]. *)
Definition top_label (l : string) : bool :=
  (2 <=? String.length l)%nat && all is_alpha l.

Fixpoint domain_labels (ls : list string) : bool :=
  match ls with
  | [] => false
  | [l] => false
  | [l; t] => domain_label l && top_label t
  | l :: rest => domain_label l && domain_labels rest
  end.

(** zod's email pattern. The text holds exactly one [@]; it does not start
    with a dot and holds no two dots in a row (the two lookaheads); the part
    before the [@] is made of [A-Za-z0-9_'+-.] and ends in one of
    [A-Za-z0-9_+-]; the part after it is one or more labels
    [[A-Za-z0-9][A-Za-z0-9-]*], each followed by a dot, and then two or more
    letters. *)
Definition is_email (s : string) : bool :=
  match split_first "@" s with
  | None => false
  | Some (local, domain) =>
      negb (startsWith "." s)
      && negb (has_dotdot s)
      && all (fun c => is_alnum c || one_of "_'+-." c) local
      && match last_char local with
         | Some c => is_alnum c || one_of "_+-" c
         | None => false
         end
      && domain_labels (split_all "." domain)
  end.

(** [z.email(msg)]: the message stands for every failure of the field. *)
Definition z_email (msg : string) (v : option json) : issues :=
  match v with
  | Some (JStr s) => if is_email s then [] else [msg]
  | _ => [msg]
  end.

(** [schema.optional()]: an absent property passes. *)
Definition optional (schema : option json -> issues) (v : option json) : issues :=
  match v with
  | None => []
  | Some _ => schema v
  end.

(** [z.object(shape)]: the properties of the shape in order; other
    properties are ignored. *)
Definition z_object (shape : list (string * (option json -> issues)))
  (v : option json) : issues :=
  match v with
  | Some (JObj fields) =>
      flat_map (fun '(key, schema) => schema (assoc key fields)) shape
  | _ => [invalid_type "object" v]
  end.

End Zod.

(** ** JavaScript numbers and [Number(string)] *)

Module JsNumber.
Import Chars.

(** A double: not-a-number, an infinity, or the rational it stands for
    (the two zeros are one value here; [===] does not tell them apart). *)
Inductive number : Type :=
| NaN
| Infinite (negative : bool)
| Finite (q : Q).

Definition isNaN (n : number) : bool :=
  match n with NaN => true | _ => false end.

(** [a !== b] on numbers. *)
Definition strict_neq (a b : number) : bool :=
  match a, b with
  | Finite p, Finite q => negb (Qeq_bool p q)
  | Infinite s, Infinite t => xorb s t
  | _, _ => true
  end.

(** [n / d] rounded to the nearest integer, ties to even ([0 <= n], [0 < d]). *)
Definition round_half_even (n d : Z) : Z :=
  let fl := n / d in
  match 2 * (n mod d) ?= d with
  | Lt => fl
  | Gt => fl + 1
  | Eq => if Z.even fl then fl else fl + 1
  end.

(** Whether [2^l <= a / d]. *)
Definition ge_pow2 (a d l : Z) : bool :=
  if 0 <=? l then d * 2 ^ l <=? a else d <=? a * 2 ^ (- l).

(** The double nearest to the rational [q]: 53 significant bits, exponents
    down to [-1074], ties to even, and an infinity from [2^1024] on. *)
Definition to_double (q : Q) : number :=
  let n := Qnum q in
  let d := Zpos (Qden q) in
  if n =? 0 then Finite 0
  else
    let a := Z.abs n in
    let l := Z.log2 a - Z.log2 d in
    let lg := if ge_pow2 a d l then l else l - 1 in
    let e := Z.max (lg - 52) (-1074) in
    let m := if 0 <=? e then round_half_even a (d * 2 ^ e)
             else round_half_even (a * 2 ^ (- e)) d in
    if (0 <=? e) && (2 ^ 1024 <=? m * 2 ^ e) then Infinite (n <? 0)
    else
      let v := if 0 <=? e then inject_Z (m * 2 ^ e)
               else Qmake m (Z.to_pos (2 ^ (- e))) in
      Finite (Qred (if n <? 0 then Qopp v else v)).

Definition of_Z (z : Z) : number := to_double (inject_Z z).

(** WhiteSpace and LineTerminator code units below 256. *)
Definition is_space (c : ascii) : bool :=
  let k := code c in
  ((9 <=? k) && (k <=? 13)) || (k =? 32) || (k =? 160).

Fixpoint trim_start (s : string) : string :=
  match s with
  | String c rest => if is_space c then trim_start rest else s
  | EmptyString => EmptyString
  end.

Fixpoint trim_end (s : string) : string :=
  match s with
  | EmptyString => EmptyString
  | String c rest =>
      match trim_end rest with
      | EmptyString => if is_space c then EmptyString else String c EmptyString
      | rest' => String c rest'
      end
  end.

Definition trim (s : string) : string := trim_end (trim_start s).

(** The value of a digit in a base up to 16, if it is one. *)
Definition digit_value (base : Z) (c : ascii) : option Z :=
  let k := code c in
  let v := if is_digit c then Some (k - 48)
           else if (97 <=? k) && (k <=? 102) then Some (k - 87)
           else if (65 <=? k) && (k <=? 70) then Some (k - 55)
           else None in
  match v with
  | Some x => if x <? base then Some x else None
  | None => None
  end.

(** The value of a run of digits, most significant first. *)
Fixpoint digits_value (base : Z) (acc : Z) (s : string) : option Z :=
  match s with
  | EmptyString => Some acc
  | String c rest =>
      match digit_value base c with
      | Some v => digits_value base (acc * base + v) rest
      | None => None
      end
  end.

(** One or more digits of the base, and nothing else. *)
Definition integer_literal (base : Z) (s : string) : option Z :=
  match s with
  | EmptyString => None
  | _ => digits_value base 0 s
  end.

(** The longest prefix of [s] whose characters satisfy [p], and the rest. *)
Fixpoint span (p : ascii -> bool) (s : string) : string * string :=
  match s with
  | String c rest =>
      if p c then let (a, b) := span p rest in (String c a, b)
      else (EmptyString, s)
  | EmptyString => (EmptyString, EmptyString)
  end.

(** A leading sign: whether it is a minus, and the text after it. *)
Definition sign (s : string) : bool * string :=
  match s with
  | String "-" rest => (true, rest)
  | String "+" rest => (false, rest)
  | _ => (false, s)
  end.

(** ExponentPart, or nothing: the exponent it denotes. *)
Definition exponent_part (s : string) : option Z :=
  match s with
  | EmptyString => Some 0
  | String c rest =>
      if one_of "eE" c then
        let (neg, ds) := sign rest in
        match integer_literal 10 ds with
        | Some e => Some (if neg then - e else e)
        | None => None
        end
      else None
  end.

(** StrUnsignedDecimalLiteral but [Infinity]: the rational it denotes. *)
Definition unsigned_decimal (s : string) : option Q :=
  let (ip, r1) := span is_digit s in
  let '(fp, r2) := match r1 with
                   | String "." r => span is_digit r
                   | _ => (EmptyString, r1)
                   end in
  match ip, fp with
  | EmptyString, EmptyString => None
  | _, _ =>
      match digits_value 10 0 (ip ++ fp), exponent_part r2 with
      | Some m, Some e =>
          let e10 := e - Z.of_nat (String.length fp) in
          Some (if 0 <=? e10 then inject_Z (m * 10 ^ e10)
                else Qmake m (Z.to_pos (10 ^ (- e10))))
      | _, _ => None
      end
  end.

(** StrDecimalLiteral *)
Definition decimal_literal (s : string) : number :=
  let (neg, body) := sign s in
  if String.eqb body "Infinity" then Infinite neg
  else match unsigned_decimal body with
       | Some q => to_double (if neg then Qopp q else q)
       | None => NaN
       end.

(** [Number(s)] for a string [s] (StringToNumber). *)
Definition Number (s : string) : number :=
  let t := trim s in
  match t with
  | EmptyString => Finite 0
  | String "0" (String x rest) =>
      let prefixed base :=
        match integer_literal base rest with
        | Some v => of_Z v
        | None => NaN
        end in
      if one_of "xX" x then prefixed 16
      else if one_of "oO" x then prefixed 8
      else if one_of "bB" x then prefixed 2
      else decimal_literal t
  | _ => decimal_literal t
  end.

End JsNumber.


(** ** Responses and middleware *)

Module Http.

(** What a handler sends: [res.status(s).json(b)], or [res.status(s).send()]
    with no body. *)
Record Response : Type := mkResponse { status : Z; body : option json }.

Definition json_reply (s : Z) (b : json) : Response :=
  {| status := s; body := Some b |}.

(** The parts of a request the routes read: [req.headers.authorization],
    [req.params.id] and [req.body] ([None] when no JSON body was parsed). *)
Record Request : Type := mkRequest {
  headers_authorization : option string;
  params_id : string;
  req_body : option json
}.

(** What a middleware does with a request: it answers, or it calls [next()]
    having put [A] on the request. *)
Inductive step (A : Type) : Type :=
| Reply (r : Response)
| Next (a : A).
Arguments Reply {A} r.
Arguments Next {A} a.

(** The 400 answer of every validator. *)
Definition validation_failed (messages : list string) : Response :=
  json_reply 400
    (JObj [("error", JStr "Validation failed");
           ("details", JArr (map JStr messages))]).

(** [if (!result.success) return res.status(400).json(...); next();] *)
Definition validate (found : list string) : step unit :=
  match found with
  | [] => Next tt
  | _ :: _ => Reply (validation_failed found)
  end.

End Http.
Export Http.

(** ** middleware/user-validation *)

Module UserValidation.
Import Chars Zod.

(** [/^\d+$/] *)
Definition digits_only (s : string) : bool :=
  match s with
  | EmptyString => false
  | _ => all is_digit s
  end.

Definition requiredUserDataSchema : option json -> issues :=
  z_object
    [("username",
      z_string None
        [min 2 "Username must be at least 2 characters";
         max 50 "Username must not exceed 50 characters"]);
     ("email", z_email "Email must be a valid email")].

Definition userIdSchema : option json -> issues :=
  z_object
    [("id", z_string None [regex digits_only "ID must be a positive number"])].

Definition partialUserDataSchema : option json -> issues :=
  z_object
    [("username",
      optional
        (z_string None
           [min 2 "Username must be at least 2 characters";
            max 50 "Username must be at least 50 characters"]));
     ("email", optional (z_string (Some "Email must be a valid email") []))].

(** [req.params] of a route with the one parameter [:id]. *)
Definition params (id : string) : json := JObj [("id", JStr id)].

Definition validateUserId (id : string) : step unit :=
  validate (userIdSchema (Some (params id))).

(** [req.body] is [None] when the request carried no JSON body. *)
Definition validateRequiredUserData (body : option json) : step unit :=
  validate (requiredUserDataSchema body).

Definition validatePartialUserData (body : option json) : step unit :=
  validate (partialUserDataSchema body).

End UserValidation.


(** ** utils/jwt.ts *)

Module Jwt.

(** The payload of a token this program issues: [{ userId, iat, exp }],
    times in seconds. *)
Record Claims : Type := mkClaims { userId : Z; iat : Z; exp : Z }.

(** The jsonwebtoken library as far as the program relies on it: the
    signature of a payload under a key, the compact text of a payload and a
    signature, and reading that text back; a token's text determines its
    payload and its signature. *)
Class Jsonwebtoken : Type := {
  signature : string -> Claims -> string;
  compact : Claims -> string -> string;
  parse : string -> option (Claims * string);
  parse_compact : forall c sig, parse (compact c sig) = Some (c, sig)
}.

(** What [jwt.verify] throws. *)
Inductive VerifyError : Type :=
| Malformed
| InvalidSignature
| TokenExpired.

(** [process.env.JWT_SECRET], or the error thrown when the module loads. *)
Definition getJwtSecret (env : option string) : option string :=
  match env with
  | Some secret => if String.eqb secret "" then None else Some secret
  | None => None
  end.

Section Codec.
Context {J : Jsonwebtoken}.
Variable JWT_SECRET : string.

(** [jwt.sign(payload, key, { expiresIn: "24h" })] at the time [now]. *)
Definition jwt_sign (uid : Z) (key : string) (now : Z) : string :=
  let c := {| userId := uid; iat := now; exp := now + 24 * 60 * 60 |} in
  compact c (signature key c).

(** [jwt.verify(token, key)] at the time [now]. *)
Definition jwt_verify (token key : string) (now : Z) : VerifyError + Claims :=
  match parse token with
  | None => inl Malformed
  | Some (c, sig) =>
      if negb (String.eqb sig (signature key c)) then inl InvalidSignature
      else if exp c <=? now then inl TokenExpired
      else inr c
  end.

Definition generateToken (now : Z) (uid : Z) : string :=
  jwt_sign uid JWT_SECRET now.

(** [try { return jwt.verify(...) } catch { return null }] *)
Definition verifyToken (now : Z) (token : string) : option Claims :=
  match jwt_verify token JWT_SECRET now with
  | inr payload => Some payload
  | inl _ => None
  end.

End Codec.
End Jwt.

(** ** middleware/auth-validation.ts *)

Module AuthValidation.
Import Chars Zod Jwt JsNumber.

Fixpoint any (p : ascii -> bool) (s : string) : bool :=
  match s with
  | EmptyString => false
  | String c rest => p c || any p rest
  end.

(** [.] of a regular expression: any code unit but a line terminator;
    of the code units below 256 these are the line feed and the carriage
    return. *)
Definition not_newline (c : ascii) : bool :=
  negb (one_of (String "010" (String "013" EmptyString)) c).

(** The four lookaheads for a lower-case letter, an upper-case letter, a
    digit and a character that is neither, then eight or more characters of
    one line. *)
Definition password_policy (s : string) : bool :=
  any is_lower s && any is_upper s && any is_digit s
  && any (fun c => negb (is_alnum c)) s
  && (8 <=? String.length s)%nat && all not_newline s.

Definition registerSchema : option json -> issues :=
  z_object
    [("username",
      z_string None
        [min 3 "Username must be at least 3 characters long";
         max 50 "Username must not exceed 50 characters"]);
     ("email", z_email "Email must be a valid email");
     ("password",
      z_string None
        [regex password_policy
           "Password must be at least 8 characters long and include uppercase, lowercase, number, and a special character"])].

Definition loginSchema : option json -> issues :=
  z_object
    [("email", z_email "Email must be a valid email");
     ("password", z_string None [])].

Definition validateRegistration (body : option json) : step unit :=
  validate (registerSchema body).

Definition validateLogin (body : option json) : step unit :=
  validate (loginSchema body).

Definition error_reply (s : Z) (message : string) : Response :=
  json_reply s (JObj [("error", JStr message)]).

Section Authenticate.
Context {J : Jsonwebtoken}.
Variable JWT_SECRET : string.

(** [authorization] is [req.headers.authorization]; on success the value
    passed on is [req.user.id]. *)
Definition authenticateToken (now : Z) (authorization : option string)
  : step number :=
  match authorization with
  | None => Reply (error_reply 401 "Access token required")
  | Some authHeader =>
      if String.eqb authHeader "" then
        Reply (error_reply 401 "Access token required")
      else if negb (startsWith "Bearer " authHeader) then
        Reply (error_reply 401 "Token must be in format: Bearer <token>")
      else
        let token := substring_from 7 authHeader in
        match verifyToken JWT_SECRET now token with
        | None => Reply (error_reply 403 "Invalid or expired token")
        | Some payload => Next (of_Z (userId payload))
        end
  end.

End Authenticate.
End AuthValidation.

(** ** The database *)

Module User.
(** A row of the [users] table (interfaces.ts, [User]); [password] is the
    stored hash, [None] for SQL NULL. *)
Record t : Type := mk {
  id : Z;
  username : string;
  email : string;
  password : option string
}.
End User.

Module Post.
(** A row of the [posts] table; [created_at] in seconds. *)
Record t : Type := mk {
  id : Z;
  title : string;
  content : string;
  user_id : Z;
  created_at : Z
}.
End Post.

Module PostWithUser.
(** A post joined with its author. *)
Record t : Type := mk {
  post : Post.t;
  username : string;
  email : string
}.
Definition created_at (r : t) : Z := Post.created_at (post r).
End PostWithUser.

Module Storage.
Import Chars JsNumber.

Record Db : Type := mkDb {
  users : list User.t;
  posts : list Post.t;
  next_id : Z;        (* AUTO_INCREMENT of users.id *)
  online : bool       (* whether the pool reaches the server *)
}.

(** What is thrown inside a handler: the reasons [pool.execute] rejects,
    and JavaScript's own TypeError. *)
Inductive failure : Type :=
| Unreachable       (* no connection *)
| ParseError        (* the text is not a statement *)
| BadBind           (* a bind value of the wrong number or kind *)
| ForeignKey        (* a post still references the row *)
| TypeError.        (* reading a property of undefined or null *)

(** A value bound to a [?]. *)
Inductive param : Type :=
| PNum (n : number)
| PVal (v : option json).

Inductive result : Type :=
| UserRows (rows : list User.t)
| PostRows (rows : list Post.t)
| PostUserRows (rows : list PostWithUser.t)
| Header (insertId affectedRows : Z).

(** [column = ?] between an integer column and a bound number; no key
    equals an infinity or NaN. *)
Definition key_is (n : number) (k : Z) : bool :=
  match n with
  | Finite q => Qeq_bool q (inject_Z k)
  | _ => false
  end.

Section OrderBy.
Context {A : Type}.
Variable key : A -> Z.

Fixpoint insert_desc (x : A) (l : list A) : list A :=
  match l with
  | [] => [x]
  | y :: rest => if key y <=? key x then x :: l else y :: insert_desc x rest
  end.

(** [ORDER BY key DESC] *)
Definition order_by_desc (l : list A) : list A := fold_right insert_desc [] l.

(** Each row's key is at least the next one's. *)
Fixpoint descending (l : list A) : bool :=
  match l with
  | x :: (y :: _) as rest => (key y <=? key x) && descending rest
  | _ => true
  end.

End OrderBy.

(** [posts INNER JOIN users ON posts.user_id = users.id] *)
Definition join_users (us : list User.t) (ps : list Post.t) : list PostWithUser.t :=
  flat_map
    (fun p =>
       map (fun u => PostWithUser.mk p (User.username u) (User.email u))
         (filter (fun u => User.id u =? Post.user_id p) us))
    ps.

(** Runs of white space become one space, and none is left at the ends. *)
Fixpoint squeeze (pending : bool) (s : string) : string :=
  match s with
  | EmptyString => EmptyString
  | String c rest =>
      if is_space c then squeeze true rest
      else if pending then String " " (String c (squeeze false rest))
      else String c (squeeze false rest)
  end.

Definition normalize (sql : string) : string := squeeze false (trim_start sql).

Inductive column : Type := Username | Email.

(** The assignments of [UPDATE users SET ... WHERE id = ?]; a list of none
    is not in the grammar. *)
Definition update_columns (sql : string) : option (list column) :=
  if String.eqb sql "UPDATE users SET username = ?, email = ? WHERE id = ?"
  then Some [Username; Email]
  else if String.eqb sql "UPDATE users SET email = ?, username = ? WHERE id = ?"
  then Some [Email; Username]
  else if String.eqb sql "UPDATE users SET username = ? WHERE id = ?"
  then Some [Username]
  else if String.eqb sql "UPDATE users SET email = ? WHERE id = ?"
  then Some [Email]
  else None.

Definition set_column (c : column) (v : string) (u : User.t) : User.t :=
  match c with
  | Username => User.mk (User.id u) v (User.email u) (User.password u)
  | Email => User.mk (User.id u) (User.username u) v (User.password u)
  end.

(** The columns paired with their bound strings, then the bound key. *)
Fixpoint assignments (cols : list column) (binds : list param)
  : option (list (column * string) * number) :=
  match cols, binds with
  | [], [PNum n] => Some ([], n)
  | c :: cols', PVal (Some (JStr v)) :: binds' =>
      match assignments cols' binds' with
      | Some (l, n) => Some ((c, v) :: l, n)
      | None => None
      end
  | _, _ => None
  end.

Definition apply_assignments (l : list (column * string)) (u : User.t) : User.t :=
  fold_left (fun u' '(c, v) => set_column c v u') l u.

Definition count {A : Type} (p : A -> bool) (l : list A) : Z :=
  Z.of_nat (List.length (filter p l)).

Definition posts_columns : string :=
  "SELECT posts.id, posts.title, posts.content, posts.user_id, posts.created_at".

(** [pool.execute(sql, binds)] on the statements of this program: the users
    table has the columns of [User.t], its key is assigned by the server,
    a post's [user_id] is a foreign key into it (a referenced user cannot be
    deleted), and a query with no ORDER BY, whose order SQL leaves open,
    returns rows in table order. *)
Definition execute (sql : string) (binds : list param) (db : Db)
  : (failure + result) * Db :=
  if negb (online db) then (inl Unreachable, db)
  else
    let q := normalize sql in
    if String.eqb q "INSERT INTO users (username, email) VALUES (?, ?)" then
      match binds with
      | [PVal (Some (JStr u)); PVal (Some (JStr e))] =>
          let row := User.mk (next_id db) u e None in
          (inr (Header (next_id db) 1),
           mkDb (users db ++ [row]) (posts db) (next_id db + 1) (online db))
      | _ => (inl BadBind, db)
      end
    else if String.eqb q "SELECT * FROM users" then
      match binds with
      | [] => (inr (UserRows (users db)), db)
      | _ => (inl BadBind, db)
      end
    else if String.eqb q "SELECT * FROM users WHERE id = ?" then
      match binds with
      | [PNum n] =>
          (inr (UserRows (filter (fun u => key_is n (User.id u)) (users db))), db)
      | _ => (inl BadBind, db)
      end
    else if String.eqb q "DELETE FROM users WHERE id = ?" then
      match binds with
      | [PNum n] =>
          let doomed u := key_is n (User.id u) in
          if existsb (fun p => key_is n (Post.user_id p)) (posts db)
             && existsb doomed (users db)
          then (inl ForeignKey, db)
          else
            (inr (Header 0 (count doomed (users db))),
             mkDb (filter (fun u => negb (doomed u)) (users db)) (posts db)
               (next_id db) (online db))
      | _ => (inl BadBind, db)
      end
    else if String.eqb q
      (posts_columns ++ " FROM posts WHERE posts.user_id = ?"
       ++ " ORDER BY posts.created_at DESC") then
      match binds with
      | [PNum n] =>
          (inr (PostRows
                  (order_by_desc Post.created_at
                     (filter (fun p => key_is n (Post.user_id p)) (posts db)))),
           db)
      | _ => (inl BadBind, db)
      end
    else if String.eqb q
      (posts_columns ++ ", users.username, users.email FROM posts"
       ++ " INNER JOIN users ON posts.user_id = users.id WHERE users.id = ?") then
      match binds with
      | [PNum n] =>
          (inr (PostUserRows
                  (join_users (filter (fun u => key_is n (User.id u)) (users db))
                     (posts db))),
           db)
      | _ => (inl BadBind, db)
      end
    else if String.eqb q
      (posts_columns ++ ", users.username, users.email FROM posts"
       ++ " INNER JOIN users ON posts.user_id = users.id"
       ++ " ORDER BY posts.created_at DESC") then
      match binds with
      | [] =>
          (inr (PostUserRows
                  (order_by_desc PostWithUser.created_at
                     (join_users (users db) (posts db)))),
           db)
      | _ => (inl BadBind, db)
      end
    else
      match update_columns q with
      | None => (inl ParseError, db)
      | Some cols =>
          match assignments cols binds with
          | None => (inl BadBind, db)
          | Some (l, n) =>
              let hit u := key_is n (User.id u) in
              (inr (Header 0 (count hit (users db))),
               mkDb
                 (map (fun u => if hit u then apply_assignments l u else u)
                    (users db))
                 (posts db) (next_id db) (online db))
          end
      end.

End Storage.

(** ** Handlers: awaited storage calls inside [try]/[catch] *)

Module Handler.
Import Storage JsNumber.

(** The body of an async handler: it runs against the database and either
    throws or yields a value. *)
Definition M (A : Type) : Type := Db -> (failure + A) * Db.

Definition ret {A : Type} (a : A) : M A := fun db => (inr a, db).

Definition throw {A : Type} (e : failure) : M A := fun db => (inl e, db).

Definition bind {A B : Type} (m : M A) (k : A -> M B) : M B :=
  fun db =>
    match m db with
    | (inl e, db') => (inl e, db')
    | (inr a, db') => k a db'
    end.

Notation "x <- m ;; k" := (bind m (fun x => k))
  (at level 61, m at next level, right associativity).
Notation "' pat <- m ;; k" := (bind m (fun x => match x with pat => k end))
  (at level 61, pat pattern, m at next level, right associativity).

(** How a request ends at the handler: a response was sent, or the
    handler's promise rejected with nothing sent. *)
Inductive outcome : Type :=
| Sent (r : Response)
| Thrown (e : failure).

(** [try { body } catch (error) { res.status(..).json(..) }] *)
Definition try_catch (m : M Response) (on_error : Response) (db : Db)
  : outcome * Db :=
  match m db with
  | (inr r, db') => (Sent r, db')
  | (inl _, db') => (Sent on_error, db')
  end.

(** A handler body outside any [try]. *)
Definition no_try (m : M Response) (db : Db) : outcome * Db :=
  match m db with
  | (inr r, db') => (Sent r, db')
  | (inl e, db') => (Thrown e, db')
  end.

(** A middleware in front of the rest of the route. *)
Definition through {A : Type} (s : step A) (rest : A -> Db -> outcome * Db)
  (db : Db) : outcome * Db :=
  match s with
  | Reply r => (Sent r, db)
  | Next a => rest a db
  end.

(** [const { username, email } = req.body] *)
Definition destructure (body : option json) : M (option json * option json) :=
  match body with
  | None | Some JNull => throw TypeError
  | Some v => ret (get "username" v, get "email" v)
  end.

(** An object literal, as [JSON.stringify] prints it: a property whose value
    is [undefined] is left out. *)
Fixpoint object (props : list (string * option json)) : list (string * json) :=
  match props with
  | [] => []
  | (k, Some v) :: rest => (k, v) :: object rest
  | (_, None) :: rest => object rest
  end.

(** A number in a JSON text. *)
Definition number_json (n : number) : json :=
  match n with
  | Finite q => JNum q
  | _ => JNull
  end.

Definition int_json (z : Z) : json := JNum (inject_Z z).

(** A row of [SELECT * FROM users]: every column of the table. *)
Definition user_json (u : User.t) : json :=
  JObj [("id", int_json (User.id u));
        ("username", JStr (User.username u));
        ("email", JStr (User.email u));
        ("password", match User.password u with
                     | Some hash => JStr hash
                     | None => JNull
                     end)].

Definition post_fields (p : Post.t) : list (string * json) :=
  [("id", int_json (Post.id p));
   ("title", JStr (Post.title p));
   ("content", JStr (Post.content p));
   ("user_id", int_json (Post.user_id p));
   ("created_at", int_json (Post.created_at p))].

Definition post_json (p : Post.t) : json := JObj (post_fields p).

Definition post_with_user_json (r : PostWithUser.t) : json :=
  JObj (post_fields (PostWithUser.post r)
        ++ [("username", JStr (PostWithUser.username r));
            ("email", JStr (PostWithUser.email r))]).

(** [const [rows] = await pool.execute(...)] of a SELECT. *)
Definition rows_of (r : result) : M (list json) :=
  match r with
  | UserRows l => ret (map user_json l)
  | PostRows l => ret (map post_json l)
  | PostUserRows l => ret (map post_with_user_json l)
  | Header _ _ => throw TypeError
  end.

(** [const [result]: [ResultSetHeader, any] = await pool.execute(...)] *)
Definition header_of (r : result) : M (Z * Z) :=
  match r with
  | Header insertId affectedRows => ret (insertId, affectedRows)
  | _ => throw TypeError
  end.

Definition message_reply (s : Z) (message : string) : Response :=
  json_reply s (JObj [("message", JStr message)]).

End Handler.

(** ** routes/users.ts *)

Module Users.
Import Chars JsNumber Jwt AuthValidation UserValidation Storage Handler.

Definition internal_error : Response := message_reply 500 "Internal server error".

Definition not_found : Response := message_reply 404 "User not found".

Definition not_owner : Response :=
  error_reply 403 "Users can only update their own account".

(** [router.post("/")], after its validator. *)
Definition POST_users_handler (req : Request) : Db -> outcome * Db :=
  try_catch
    ('(username, email) <- destructure (req_body req) ;;
     r <- execute "INSERT INTO users (username, email) VALUES (?, ?)"
            [PVal username; PVal email] ;;
     '(insertId, _) <- header_of r ;;
     ret (json_reply 201
            (JObj (object [("id", Some (int_json insertId));
                           ("username", username);
                           ("email", email)]))))
    internal_error.

Definition POST_users (req : Request) : Db -> outcome * Db :=
  through (validateRequiredUserData (req_body req)) (fun _ =>
  POST_users_handler req).

(** [router.get("/")] *)
Definition GET_users (req : Request) : Db -> outcome * Db :=
  try_catch
    (r <- execute "SELECT * FROM users" [] ;;
     rows <- rows_of r ;;
     ret (json_reply 200 (JArr rows)))
    internal_error.

(** [router.get("/:id")], after its validator. *)
Definition GET_users_id_handler (req : Request) : Db -> outcome * Db :=
  try_catch
    (let userId := Number (params_id req) in
     r <- execute "SELECT * FROM users WHERE id = ?" [PNum userId] ;;
     users <- rows_of r ;;
     match users with
     | [] => ret not_found
     | first :: _ => ret (json_reply 200 first)
     end)
    internal_error.

Definition GET_users_id (req : Request) : Db -> outcome * Db :=
  through (validateUserId (params_id req)) (fun _ =>
  GET_users_id_handler req).

(** [router.put("/:id")], after its three middlewares; [user_id] is
    [req.user.id]. *)
Definition PUT_users_id_handler (user_id : number) (req : Request)
  : Db -> outcome * Db :=
  try_catch
    (let userId := Number (params_id req) in
     '(username, email) <- destructure (req_body req) ;;
     if strict_neq user_id userId then ret not_owner
     else
       r <- execute "UPDATE users SET username = ?, email = ? WHERE id = ?"
              [PVal username; PVal email; PNum userId] ;;
       '(_, affectedRows) <- header_of r ;;
       if affectedRows =? 0 then ret not_found
       else ret (json_reply 200
                   (JObj (object [("id", Some (number_json userId));
                                  ("username", username);
                                  ("email", email)]))))
    internal_error.

(** [fieldsToUpdate], [values] and [query] of the PATCH handler. *)
Definition fieldsToUpdate (username email : option json) : list string :=
  ((if truthy username then ["username = ?"] else [])
   ++ (if truthy email then ["email = ?"] else []))%list.

Definition values (username email : option json) (userId : number) : list param :=
  ((if truthy username then [PVal username] else [])
   ++ (if truthy email then [PVal email] else [])
   ++ [PNum userId])%list.

Definition query (fields : list string) : string :=
  "UPDATE users SET " ++ join ", " fields ++ " WHERE id = ?".

(** [router.patch("/:id")], after its three middlewares. *)
Definition PATCH_users_id_handler (user_id : number) (req : Request)
  : Db -> outcome * Db :=
  try_catch
    (let userId := Number (params_id req) in
     '(username, email) <- destructure (req_body req) ;;
     if strict_neq user_id userId then ret not_owner
     else
       r <- execute (query (fieldsToUpdate username email))
              (values username email userId) ;;
       '(_, affectedRows) <- header_of r ;;
       if affectedRows =? 0 then ret not_found
       else
         r' <- execute "SELECT * FROM users WHERE id = ?" [PNum userId] ;;
         users <- rows_of r' ;;
         ret {| status := 200; body := hd_error users |})
    internal_error.

(** [router.delete("/:id")], after its two middlewares. *)
Definition DELETE_users_id_handler (user_id : number) (req : Request)
  : Db -> outcome * Db :=
  try_catch
    (let userId := Number (params_id req) in
     if strict_neq user_id userId then ret not_owner
     else
       r <- execute "DELETE FROM users WHERE id = ?" [PNum userId] ;;
       '(_, affectedRows) <- header_of r ;;
       if affectedRows =? 0 then ret not_found
       else ret {| status := 204; body := None |})
    internal_error.

(** [router.get("/:id/posts")] *)
Definition GET_users_id_posts (req : Request) : Db -> outcome * Db :=
  try_catch
    (let userId := Number (params_id req) in
     if isNaN userId then ret (error_reply 400 "Invalid user ID")
     else
       r <- execute
              "SELECT posts.id, posts.title, posts.content, posts.user_id, posts.created_at FROM posts WHERE posts.user_id = ? ORDER BY posts.created_at DESC"
              [PNum userId] ;;
       posts <- rows_of r ;;
       ret (json_reply 200 (JArr posts)))
    (error_reply 500 "Failed to fetch user posts").

(** [router.get("/:id/posts-with-user")]: no [try] around the body. *)
Definition GET_users_id_posts_with_user (req : Request) : Db -> outcome * Db :=
  no_try
    (let userId := Number (params_id req) in
     r <- execute
            "
    SELECT posts.id, posts.title, posts.content, posts.user_id, posts.created_at,
           users.username, users.email
    FROM posts
    INNER JOIN users ON posts.user_id = users.id
    WHERE users.id = ?
  "
            [PNum userId] ;;
     posts <- rows_of r ;;
     ret (json_reply 200 (JArr posts))).

Section Protected.
Context {J : Jsonwebtoken}.
Variable JWT_SECRET : string.
Variable now : Z.

Definition PUT_users_id (req : Request) : Db -> outcome * Db :=
  through (authenticateToken JWT_SECRET now (headers_authorization req))
    (fun user_id =>
  through (validateUserId (params_id req)) (fun _ =>
  through (validateRequiredUserData (req_body req)) (fun _ =>
  PUT_users_id_handler user_id req))).

Definition PATCH_users_id (req : Request) : Db -> outcome * Db :=
  through (authenticateToken JWT_SECRET now (headers_authorization req))
    (fun user_id =>
  through (validateUserId (params_id req)) (fun _ =>
  through (validatePartialUserData (req_body req)) (fun _ =>
  PATCH_users_id_handler user_id req))).

Definition DELETE_users_id (req : Request) : Db -> outcome * Db :=
  through (authenticateToken JWT_SECRET now (headers_authorization req))
    (fun user_id =>
  through (validateUserId (params_id req)) (fun _ =>
  DELETE_users_id_handler user_id req)).

End Protected.
End Users.

(** ** routes/posts.ts *)

Module Posts.
Import Storage Handler AuthValidation.

(** [router.get("/")] *)
Definition GET_posts (req : Request) : Db -> outcome * Db :=
  try_catch
    (r <- execute
            "SELECT posts.id, posts.title, posts.content, posts.user_id, posts.created_at, users.username, users.email FROM posts INNER JOIN users ON posts.user_id = users.id ORDER BY posts.created_at DESC"
            [] ;;
     posts <- rows_of r ;;
     ret (json_reply 200 (JArr posts)))
    (error_reply 500 "Failed to fetch posts").

End Posts.

(** ** A jsonwebtoken to run examples with *)

Module ToyJwt.
Import Chars Jwt.

(** Decimal text of an integer and back. *)
Definition print (z : Z) : string :=
  DecimalString.NilEmpty.string_of_int (Z.to_int z).

Definition read (s : string) : option Z :=
  option_map Z.of_int (DecimalString.NilEmpty.int_of_string s).

(** [userId.iat.exp] *)
Definition payload_text (c : Claims) : string :=
  print (userId c) ++ "." ++ print (iat c) ++ "." ++ print (exp c).

(** A keyed tag that stands for the HMAC of the payload. *)
Definition toy_signature (key : string) (c : Claims) : string :=
  "hs256(" ++ key ++ "," ++ payload_text c ++ ")".

(** [userId.iat.exp.signature] *)
Definition toy_compact (c : Claims) (sig : string) : string :=
  print (userId c) ++ "." ++ (print (iat c) ++ "." ++ (print (exp c) ++ "." ++ sig)).

Definition toy_parse (token : string) : option (Claims * string) :=
  match split_first "." token with
  | Some (a, r1) =>
      match split_first "." r1 with
      | Some (b, r2) =>
          match split_first "." r2 with
          | Some (c, sig) =>
              match read a, read b, read c with
              | Some u, Some i, Some e => Some (mkClaims u i e, sig)
              | _, _, _ => None
              end
          | None => None
          end
      | None => None
      end
  | None => None
  end.

End ToyJwt.

(** ** Sample data *)

Module Sample.
Import Storage.

Definition alice : User.t :=
  User.mk 1 "alice" "alice@example.com" (Some "$2b$10$N9qo8uLOickgx2ZMRZoMye").

Definition bob : User.t := User.mk 2 "bob" "bob@example.com" None.

Definition first_post : Post.t := Post.mk 1 "Opening" "We are open" 1 1000.

Definition second_post : Post.t := Post.mk 2 "Menu" "New menu" 1 2000.

(** Two users, and two posts of the first one, the older stored first. *)
Definition db : Db :=
  mkDb [alice; bob] [first_post; second_post] 3 true.

(** The same tables behind a pool that cannot connect. *)
Definition offline_db : Db :=
  mkDb [alice; bob] [first_post; second_post] 3 false.

Definition request (authorization : option string) (id : string)
  (body : option json) : Request :=
  mkRequest authorization id body.

Definition secret : string := "s3cret".

End Sample.

(** * Properties *)

(** ** The example jsonwebtoken satisfies the interface *)

Import Chars Zod JsNumber UserValidation Jwt AuthValidation Storage Handler.
Import Users Posts.

Lemma split_first_uint (d : Decimal.uint) (rest : string) :
  split_first "." (NilEmpty.string_of_uint d ++ String "." rest)
  = Some (NilEmpty.string_of_uint d, rest).
Proof.
  induction d; simpl; rewrite ?IHd; reflexivity.
Qed.

Lemma split_first_print (z : Z) (rest : string) :
  split_first "." (ToyJwt.print z ++ String "." rest)
  = Some (ToyJwt.print z, rest).
Proof.
  unfold ToyJwt.print. destruct (Z.to_int z) as [d | d]; simpl.
  - apply split_first_uint.
  - rewrite split_first_uint. reflexivity.
Qed.

Lemma read_print (z : Z) : ToyJwt.read (ToyJwt.print z) = Some z.
Proof.
  unfold ToyJwt.read, ToyJwt.print.
  rewrite NilEmpty.isi. simpl. now rewrite DecimalZ.of_to.
Qed.

Lemma toy_parse_compact (c : Claims) (sig : string) :
  ToyJwt.toy_parse (ToyJwt.toy_compact c sig) = Some (c, sig).
Proof.
  unfold ToyJwt.toy_parse, ToyJwt.toy_compact.
  repeat (match goal with
          | |- context [("." ++ ?x)%string] =>
              change ("." ++ x)%string with (String "." x)
          end;
          rewrite split_first_print; cbv beta iota).
  rewrite !read_print. now destruct c.
Qed.

#[export] Instance toy : Jsonwebtoken := {|
  signature := ToyJwt.toy_signature;
  compact := ToyJwt.toy_compact;
  parse := ToyJwt.toy_parse;
  parse_compact := toy_parse_compact
|}.

(** ** Validators *)

Lemma validate_Next (found : list string) :
  validate found = Next tt <-> found = [].
Proof.
  destruct found; simpl; split; intro H; try reflexivity; discriminate.
Qed.

Lemma validate_cases (found : list string) :
  validate found = Next tt
  \/ (found <> [] /\ validate found = Reply (validation_failed found)).
Proof.
  destruct found; simpl; [left | right; split]; try reflexivity; discriminate.
Qed.

(** The two length checks on a username pass exactly between 2 and 50. *)
Lemma username_checks (m1 m2 : string) (s : string) :
  flat_map (fun c : check => check_string c s) [min 2 m1; max 50 m2] = []
  <-> (2 <= String.length s <= 50)%nat.
Proof.
  simpl.
  destruct (Nat.ltb_spec (String.length s) 2);
    destruct (Nat.ltb_spec 50 (String.length s));
    simpl; split; intro H1; try discriminate; try lia; reflexivity.
Qed.

(** The username rule of both user-data schemas. *)
Definition username_ok (v : json) : Prop :=
  match v with
  | JStr u => (2 <= String.length u <= 50)%nat
  | _ => False
  end.

Definition email_ok (v : json) : Prop :=
  match v with
  | JStr e => is_email e = true
  | _ => False
  end.

Definition is_string (v : json) : Prop :=
  match v with
  | JStr _ => True
  | _ => False
  end.

(** Absent, or present and satisfying [P]. *)
Definition if_present (P : json -> Prop) (v : option json) : Prop :=
  match v with
  | None => True
  | Some x => P x
  end.

Definition present (P : json -> Prop) (v : option json) : Prop :=
  match v with
  | None => False
  | Some x => P x
  end.

Lemma app_nil_iff {A : Type} (l1 l2 : list A) :
  (l1 ++ l2 = [])%list <-> l1 = [] /\ l2 = [].
Proof.
  split.
  - apply app_eq_nil.
  - intros [-> ->]. reflexivity.
Qed.

Lemma z_string_username (m1 m2 : string) (v : option json) :
  z_string None [min 2 m1; max 50 m2] v = [] <-> present username_ok v.
Proof.
  destruct v as [[]|]; simpl; try (split; [discriminate | tauto]).
  apply (username_checks m1 m2).
Qed.

Lemma z_email_ok (msg : string) (v : option json) :
  z_email msg v = [] <-> present email_ok v.
Proof.
  destruct v as [[]|]; simpl; try (split; [discriminate | tauto]).
  destruct (is_email s); split; intro H; try reflexivity; discriminate.
Qed.

Lemma z_string_plain (msg : option string) (v : option json) :
  z_string msg [] v = [] <-> present is_string v.
Proof.
  destruct v as [[]|]; simpl; try (split; [discriminate | tauto]).
  tauto.
Qed.

Lemma optional_ok (schema : option json -> issues) (P : json -> Prop)
  (v : option json) :
  (schema v = [] <-> present P v) ->
  (optional schema v = [] <-> if_present P v).
Proof.
  destruct v; simpl; tauto.
Qed.

(** The required-user-data validator accepts exactly the objects with a
    username of 2 to 50 characters and an email that is one. *)
Lemma validateRequiredUserData_accepts_iff (body : option json) :
  validateRequiredUserData body = Next tt <->
  exists fields,
    body = Some (JObj fields)
    /\ present username_ok (assoc "username" fields)
    /\ present email_ok (assoc "email" fields).
Proof.
  unfold validateRequiredUserData. rewrite validate_Next.
  destruct body as [[]|]; simpl;
    try (split; [discriminate | intros (f & E & _); discriminate]).
  rewrite app_nil_r, app_nil_iff, z_string_username, z_email_ok.
  split.
  - intros [Hu He]. now exists fields.
  - intros (f & E & Hu & He). now inversion E; subst.
Qed.

(** The partial-user-data validator accepts exactly the objects whose
    username, if present, has 2 to 50 characters and whose email, if
    present, is a string. *)
Lemma validatePartialUserData_accepts_iff (body : option json) :
  validatePartialUserData body = Next tt <->
  exists fields,
    body = Some (JObj fields)
    /\ if_present username_ok (assoc "username" fields)
    /\ if_present is_string (assoc "email" fields).
Proof.
  unfold validatePartialUserData. rewrite validate_Next.
  destruct body as [[]|]; simpl;
    try (split; [discriminate | intros (f & E & _); discriminate]).
  rewrite app_nil_r, app_nil_iff.
  rewrite (optional_ok _ username_ok _ (z_string_username _ _ _)).
  rewrite (optional_ok _ is_string _ (z_string_plain _ _)).
  split.
  - intros [Hu He]. now exists fields.
  - intros (f & E & Hu & He). now inversion E; subst.
Qed.

(** A present username outside 2 to 50 characters is rejected by the
    partial validator. *)
Lemma validatePartialUserData_rejects_username (fields : list (string * json))
  (u : string) :
  assoc "username" fields = Some (JStr u) ->
  (String.length u < 2 \/ 50 < String.length u)%nat ->
  exists messages,
    validatePartialUserData (Some (JObj fields))
    = Reply (validation_failed messages).
Proof.
  intros Hu Hlen.
  destruct (validate_cases (partialUserDataSchema (Some (JObj fields))))
    as [H | [_ H]].
  - apply validatePartialUserData_accepts_iff in H.
    destruct H as (f & E & Hok & _). inversion E; subst f.
    rewrite Hu in Hok. simpl in Hok. lia.
  - eexists. exact H.
Qed.

(** C2: the partial validator accepts an email that is not one, which the
    required validator rejects: [{ email: "not-an-email" }] passes. *)
Theorem partial_validator_accepts_invalid_email :
  is_email "not-an-email" = false
  /\ validatePartialUserData (Some (JObj [("email", JStr "not-an-email")]))
     = Next tt
  /\ validateRequiredUserData
       (Some (JObj [("username", JStr "ab"); ("email", JStr "not-an-email")]))
     = Reply (validation_failed ["Email must be a valid email"]).
Proof.
  repeat split; reflexivity.
Qed.

(** C5, as amended: the login validator accepts exactly the objects with an
    email that is one and a password that is a string, of any length and
    make-up, the empty string included; every other body gets the 400 reply
    with its messages. *)
Theorem validateLogin_accepts_iff (body : option json) :
  (validateLogin body = Next tt <->
   exists fields e p,
     body = Some (JObj fields)
     /\ assoc "email" fields = Some (JStr e) /\ is_email e = true
     /\ assoc "password" fields = Some (JStr p))
  /\ (validateLogin body = Next tt
      \/ exists messages,
           messages <> []
           /\ validateLogin body = Reply (validation_failed messages)).
Proof.
  split.
  - unfold validateLogin. rewrite validate_Next.
    destruct body as [[]|]; simpl;
      try (split; [discriminate | intros (f & e & p & E & _); discriminate]).
    rewrite app_nil_r, app_nil_iff, z_email_ok, z_string_plain.
    split.
    + intros [He Hp].
      destruct (assoc "email" fields) as [[]|] eqn:Ee; simpl in He; try tauto.
      destruct (assoc "password" fields) as [[]|] eqn:Ep; simpl in Hp;
        try tauto.
      now exists fields, s, s0.
    + intros (f & e & p & E & He & Hv & Hp). inversion E; subst f.
      rewrite He, Hp. simpl. tauto.
  - destruct (validate_cases (loginSchema body)) as [H | [Hne H]].
    + now left.
    + right. eexists. split; eassumption.
Qed.

(** The user-id validator accepts exactly the non-empty digit strings. *)
Lemma validateUserId_accepts_iff (id : string) :
  validateUserId id = Next tt <-> digits_only id = true.
Proof.
  unfold validateUserId. rewrite validate_Next. simpl.
  destruct (digits_only id); split; intro H; try reflexivity; discriminate.
Qed.

(** Login takes a password that registration refuses. *)
Example login_has_no_password_policy :
  let body password :=
    Some (JObj [("username", JStr "alice");
                ("email", JStr "alice@example.com");
                ("password", JStr password)]) in
  validateLogin (body "x") = Next tt
  /\ validateRegistration (body "x") <> Next tt
  /\ validateRegistration (body "Secret#123") = Next tt.
Proof.
  split; [| split]; try reflexivity. discriminate.
Qed.

(** C5, the claim as written fails: a valid email with the empty password
    is accepted. *)
Lemma validateLogin_accepts_empty_password :
  is_email "a@b.com" = true
  /\ validateLogin
       (Some (JObj [("email", JStr "a@b.com"); ("password", JStr "")]))
     = Next tt.
Proof.
  split; reflexivity.
Qed.

(** ** Tokens *)

Section TokenFacts.
Context {J : Jsonwebtoken}.
Variable JWT_SECRET : string.

(** The payload [generateToken] signs at the time [issued]. *)
Definition issued_claims (issued uid : Z) : Claims :=
  {| userId := uid; iat := issued; exp := issued + 86400 |}.

Lemma generateToken_compact (issued uid : Z) :
  generateToken JWT_SECRET issued uid
  = compact (issued_claims issued uid)
      (signature JWT_SECRET (issued_claims issued uid)).
Proof. reflexivity. Qed.

(** [jwt.verify] on a well-formed token: the signature, then the expiry. *)
Lemma jwt_verify_compact (c : Claims) (sig : string) (now : Z) :
  jwt_verify (compact c sig) JWT_SECRET now
  = if negb (String.eqb sig (signature JWT_SECRET c)) then inl InvalidSignature
    else if exp c <=? now then inl TokenExpired
    else inr c.
Proof.
  unfold jwt_verify. now rewrite parse_compact.
Qed.

Lemma verifyToken_fresh (issued uid now : Z) :
  now < issued + 86400 ->
  verifyToken JWT_SECRET now (generateToken JWT_SECRET issued uid)
  = Some (issued_claims issued uid).
Proof.
  intro Hnow. unfold verifyToken.
  rewrite generateToken_compact, jwt_verify_compact, String.eqb_refl. simpl.
  destruct (Z.leb_spec (issued + 86400) now); [lia | reflexivity].
Qed.

Lemma verifyToken_expired (issued uid now : Z) :
  issued + 86400 <= now ->
  verifyToken JWT_SECRET now (generateToken JWT_SECRET issued uid) = None.
Proof.
  intro Hnow. unfold verifyToken.
  rewrite generateToken_compact, jwt_verify_compact, String.eqb_refl. simpl.
  destruct (Z.leb_spec (issued + 86400) now); [reflexivity | lia].
Qed.

Lemma verifyToken_tampered (c : Claims) (sig : string) (now : Z) :
  sig <> signature JWT_SECRET c ->
  verifyToken JWT_SECRET now (compact c sig) = None.
Proof.
  intro Hsig. unfold verifyToken. rewrite jwt_verify_compact.
  apply String.eqb_neq in Hsig. now rewrite Hsig.
Qed.

(** C9: a token issued for [uid] verifies to [uid] at any time before its
    expiry, the moment of issue included; from the expiry on it verifies to
    the invalid result; with any other signature in place of its own it
    verifies to the invalid result; and [verifyToken] yields the invalid
    result for everything [jwt.verify] throws. *)
Theorem token_round_trip_and_rejection (uid issued : Z) :
  (forall now, now < issued + 86400 ->
     option_map userId
       (verifyToken JWT_SECRET now (generateToken JWT_SECRET issued uid))
     = Some uid)
  /\ verifyToken JWT_SECRET issued (generateToken JWT_SECRET issued uid)
     = Some (issued_claims issued uid)
  /\ (forall now, issued + 86400 <= now ->
        verifyToken JWT_SECRET now (generateToken JWT_SECRET issued uid) = None)
  /\ (forall now sig, sig <> signature JWT_SECRET (issued_claims issued uid) ->
        verifyToken JWT_SECRET now (compact (issued_claims issued uid) sig)
        = None)
  /\ (forall now token e, jwt_verify token JWT_SECRET now = inl e ->
        verifyToken JWT_SECRET now token = None).
Proof.
  repeat split.
  - intros now Hnow. now rewrite verifyToken_fresh.
  - apply verifyToken_fresh. lia.
  - apply verifyToken_expired.
  - intros now sig. apply verifyToken_tampered.
  - intros now token e He. unfold verifyToken. now rewrite He.
Qed.

(** The four outcomes of the middleware, by the header it reads. *)
Inductive header_case (now : Z) : option string -> step number -> Prop :=
| NoHeader :
    header_case now None (Reply (error_reply 401 "Access token required"))
| EmptyHeader :
    header_case now (Some "")
      (Reply (error_reply 401 "Access token required"))
| BadScheme h :
    h <> "" -> startsWith "Bearer " h = false ->
    header_case now (Some h)
      (Reply (error_reply 401 "Token must be in format: Bearer <token>"))
| Invalid h :
    startsWith "Bearer " h = true ->
    verifyToken JWT_SECRET now (substring_from 7 h) = None ->
    header_case now (Some h)
      (Reply (error_reply 403 "Invalid or expired token"))
| Authenticated h payload :
    startsWith "Bearer " h = true ->
    verifyToken JWT_SECRET now (substring_from 7 h) = Some payload ->
    header_case now (Some h) (Next (of_Z (userId payload))).

(** C8, as amended: an absent or empty header gets 401 "Access token
    required"; a non-empty header that does not start with "Bearer " gets
    401 "Token must be in format: Bearer <token>"; a header with the prefix
    whose remainder does not verify gets 403 "Invalid or expired token";
    otherwise the verified user id is passed on. Every request falls in
    exactly one of the cases, and a failure is the middleware's reply. *)
Theorem authenticateToken_outcomes (now : Z) (authorization : option string)
  (result : step number) :
  authenticateToken JWT_SECRET now authorization = result
  <-> header_case now authorization result.
Proof.
  split.
  - intros <-. unfold authenticateToken.
    destruct authorization as [h |]; [| constructor].
    destruct (String.eqb_spec h "") as [-> | Hne]; [constructor |].
    destruct (startsWith "Bearer " h) eqn:Hs; cbn [negb].
    + destruct (verifyToken JWT_SECRET now (substring_from 7 h)) eqn:Hv.
      * now apply Authenticated.
      * now apply Invalid.
    + now apply BadScheme.
  - intros H. destruct H; unfold authenticateToken; try reflexivity.
    + apply String.eqb_neq in H. now rewrite H, H0.
    + destruct (String.eqb_spec h ""); [subst; discriminate |].
      now rewrite H, H0.
    + destruct (String.eqb_spec h ""); [subst; discriminate |].
      now rewrite H, H0.
Qed.

(** A request carrying a fresh token of [uid] is authenticated as [uid]. *)
Lemma authenticateToken_fresh (issued uid now : Z) :
  now < issued + 86400 ->
  authenticateToken JWT_SECRET now
    (Some ("Bearer " ++ generateToken JWT_SECRET issued uid))
  = Next (of_Z uid).
Proof.
  intro Hnow. unfold authenticateToken. simpl.
  now rewrite verifyToken_fresh.
Qed.

End TokenFacts.

(** C9 on the example library: user 5's token, issued at 1000. *)
Lemma token_round_trip_witness :
  option_map userId
    (verifyToken Sample.secret 2000 (generateToken Sample.secret 1000 5))
  = Some 5
  /\ verifyToken Sample.secret 87400 (generateToken Sample.secret 1000 5)
     = None
  /\ verifyToken Sample.secret 2000
       (compact (issued_claims 1000 5) "forged") = None.
Proof.
  destruct (token_round_trip_and_rejection Sample.secret 5 1000)
    as (Hfresh & _ & Hexpired & Htampered & _).
  split; [| split].
  - apply Hfresh. reflexivity.
  - apply Hexpired. discriminate.
  - apply Htampered. discriminate.
Defined.

(** C8, the claim as written fails: a header that is present and empty does
    not start with "Bearer ", and the answer is "Access token required". *)
Lemma empty_header_is_not_bad_scheme :
  startsWith "Bearer " "" = false
  /\ authenticateToken Sample.secret 0 (Some "")
     = Reply (error_reply 401 "Access token required")
  /\ authenticateToken Sample.secret 0 (Some "")
     <> Reply (error_reply 401 "Token must be in format: Bearer <token>").
Proof.
  repeat split; try reflexivity. discriminate.
Qed.

(** ** ORDER BY *)

Section OrderByFacts.
Context {A : Type}.
Variable key : A -> Z.

(** [x] may come before [y] in a descending listing. *)
Definition not_older (x y : A) : Prop := key y <= key x.

Lemma insert_desc_HdRel (a x : A) (l : list A) :
  not_older a x -> HdRel not_older a l ->
  HdRel not_older a (insert_desc key x l).
Proof.
  intros Hax Hal. destruct l as [| y rest]; simpl.
  - now constructor.
  - destruct (key y <=? key x); constructor; [assumption |].
    now inversion Hal.
Qed.

Lemma insert_desc_Sorted (x : A) (l : list A) :
  Sorted not_older l -> Sorted not_older (insert_desc key x l).
Proof.
  induction 1 as [| y rest Hrest IH Hhd]; simpl.
  - repeat constructor.
  - destruct (Z.leb_spec (key y) (key x)) as [Hle | Hlt].
    + constructor; [now constructor | now constructor].
    + constructor; [exact IH |].
      apply insert_desc_HdRel; [unfold not_older; lia | exact Hhd].
Qed.

Lemma order_by_desc_Sorted (l : list A) :
  Sorted not_older (order_by_desc key l).
Proof.
  induction l as [| x rest IH]; simpl.
  - constructor.
  - now apply insert_desc_Sorted.
Qed.

Lemma insert_desc_Permutation (x : A) (l : list A) :
  Permutation (x :: l) (insert_desc key x l).
Proof.
  induction l as [| y rest IH]; simpl.
  - reflexivity.
  - destruct (key y <=? key x).
    + reflexivity.
    + rewrite perm_swap. now constructor.
Qed.

(** The ordered listing holds the same rows. *)
Lemma order_by_desc_Permutation (l : list A) :
  Permutation l (order_by_desc key l).
Proof.
  induction l as [| x rest IH]; simpl.
  - constructor.
  - rewrite <- insert_desc_Permutation. now constructor.
Qed.

(** The executable test agrees with [Sorted]. *)
Lemma descending_Sorted (l : list A) :
  descending key l = true <-> Sorted not_older l.
Proof.
  induction l as [| x [| y rest] IH].
  - split; [constructor | reflexivity].
  - split; [repeat constructor | reflexivity].
  - change (descending key (x :: y :: rest))
      with ((key y <=? key x) && descending key (y :: rest)).
    rewrite andb_true_iff, IH, Z.leb_le. split.
    + intros [Hle Hs]. constructor; [exact Hs | now constructor].
    + intros Hs. inversion Hs as [| ? ? Hs' Hhd]; subst.
      split; [now inversion Hhd | exact Hs'].
Qed.

Lemma order_by_desc_descending (l : list A) :
  descending key (order_by_desc key l) = true.
Proof.
  apply descending_Sorted, order_by_desc_Sorted.
Qed.

End OrderByFacts.

(** ** The statements *)

(** Decides the comparisons between statement texts. *)
Ltac recognise :=
  repeat match goal with
    | |- context [String.eqb ?a ?b] =>
        let v := eval vm_compute in (String.eqb a b) in
        change (String.eqb a b) with v
    end;
  cbv iota.

Ltac run_online Hon :=
  unfold execute; rewrite Hon; cbv beta zeta; cbn [negb]; recognise.

Lemma execute_offline (sql : string) (params : list param) (db : Db) :
  online db = false -> execute sql params db = (inl Unreachable, db).
Proof.
  intro Hoff. unfold execute. now rewrite Hoff.
Qed.

Lemma select_all_users (db : Db) :
  online db = true ->
  execute "SELECT * FROM users" [] db = (inr (UserRows (users db)), db).
Proof.
  intro Hon. run_online Hon. reflexivity.
Qed.

Lemma select_user_by_id (n : number) (db : Db) :
  online db = true ->
  execute "SELECT * FROM users WHERE id = ?" [PNum n] db
  = (inr (UserRows (filter (fun u => key_is n (User.id u)) (users db))), db).
Proof.
  intro Hon. run_online Hon. reflexivity.
Qed.

Lemma select_posts_of_user (n : number) (db : Db) :
  online db = true ->
  execute
    "SELECT posts.id, posts.title, posts.content, posts.user_id, posts.created_at FROM posts WHERE posts.user_id = ? ORDER BY posts.created_at DESC"
    [PNum n] db
  = (inr (PostRows
            (order_by_desc Post.created_at
               (filter (fun p => key_is n (Post.user_id p)) (posts db)))),
     db).
Proof.
  intro Hon. run_online Hon. reflexivity.
Qed.

Lemma select_posts_with_user (n : number) (db : Db) :
  online db = true ->
  execute
    "
    SELECT posts.id, posts.title, posts.content, posts.user_id, posts.created_at,
           users.username, users.email
    FROM posts
    INNER JOIN users ON posts.user_id = users.id
    WHERE users.id = ?
  "
    [PNum n] db
  = (inr (PostUserRows
            (join_users (filter (fun u => key_is n (User.id u)) (users db))
               (posts db))),
     db).
Proof.
  intro Hon. run_online Hon. reflexivity.
Qed.

Lemma select_all_posts (db : Db) :
  online db = true ->
  execute
    "SELECT posts.id, posts.title, posts.content, posts.user_id, posts.created_at, users.username, users.email FROM posts INNER JOIN users ON posts.user_id = users.id ORDER BY posts.created_at DESC"
    [] db
  = (inr (PostUserRows
            (order_by_desc PostWithUser.created_at
               (join_users (users db) (posts db)))),
     db).
Proof.
  intro Hon. run_online Hon. reflexivity.
Qed.

Lemma insert_user (u e : string) (db : Db) :
  online db = true ->
  execute "INSERT INTO users (username, email) VALUES (?, ?)"
    [PVal (Some (JStr u)); PVal (Some (JStr e))] db
  = (inr (Header (next_id db) 1),
     mkDb (users db ++ [User.mk (next_id db) u e None]) (posts db)
       (next_id db + 1) (online db)).
Proof.
  intro Hon. run_online Hon. reflexivity.
Qed.

(** An UPDATE with no assignment is not a statement. *)
Lemma update_nothing (params : list param) (db : Db) :
  online db = true ->
  execute (query []) params db = (inl ParseError, db).
Proof.
  intro Hon. run_online Hon. reflexivity.
Qed.

(** ** Reading users *)

Ltac run_handler :=
  cbv beta iota zeta
    delta [try_catch no_try Handler.bind ret throw rows_of header_of].

Lemma GET_users_all_columns (req : Request) (db : Db) :
  online db = true ->
  GET_users req db
  = (Sent (json_reply 200 (JArr (map user_json (users db)))), db).
Proof.
  intro Hon. unfold GET_users. run_handler.
  now rewrite (select_all_users db Hon).
Qed.

(** The object sent for a stored row carries the stored hash. *)
Lemma user_json_password (u : User.t) (hash : string) :
  User.password u = Some hash ->
  get "password" (user_json u) = Some (JStr hash).
Proof.
  intro Hp. unfold user_json. simpl. now rewrite Hp.
Qed.

Lemma GET_users_id_first_row (req : Request) (db : Db) :
  validateUserId (params_id req) = Next tt ->
  online db = true ->
  GET_users_id req db
  = (Sent
       match filter (fun u => key_is (Number (params_id req)) (User.id u))
               (users db) with
       | [] => not_found
       | u :: _ => json_reply 200 (user_json u)
       end,
     db).
Proof.
  intros Hid Hon. unfold GET_users_id, through. rewrite Hid.
  unfold GET_users_id_handler. run_handler.
  rewrite (select_user_by_id _ db Hon). cbv beta iota.
  now destruct (filter _ (users db)).
Qed.

(** What a validated body holds. *)
Lemma required_body (body : option json) :
  validateRequiredUserData body = Next tt ->
  exists fields u e,
    body = Some (JObj fields)
    /\ assoc "username" fields = Some (JStr u)
    /\ assoc "email" fields = Some (JStr e).
Proof.
  intro H. apply validateRequiredUserData_accepts_iff in H.
  destruct H as (fields & -> & Hu & He).
  destruct (assoc "username" fields) as [[]|] eqn:Eu; simpl in Hu; try tauto.
  destruct (assoc "email" fields) as [[]|] eqn:Ee; simpl in He; try tauto.
  now exists fields, s, s0.
Qed.

(** POST /users answers with the three properties [id], [username] and
    [email], and stores a row without a password. *)
Lemma POST_users_created (req : Request) (db : Db) :
  validateRequiredUserData (req_body req) = Next tt ->
  online db = true ->
  exists u e,
    POST_users req db
    = (Sent (json_reply 201
               (JObj [("id", int_json (next_id db));
                      ("username", JStr u);
                      ("email", JStr e)])),
       mkDb (users db ++ [User.mk (next_id db) u e None]) (posts db)
         (next_id db + 1) (online db)).
Proof.
  intros Hv Hon. unfold POST_users, through. rewrite Hv.
  destruct (required_body _ Hv) as (fields & u & e & Hb & Hu & He).
  assert (Hd : destructure (req_body req)
               = ret (Some (JStr u), Some (JStr e))).
  { rewrite Hb. simpl. now rewrite Hu, He. }
  exists u, e. unfold POST_users_handler. rewrite Hd. run_handler.
  now rewrite (insert_user u e db Hon).
Qed.

(** C1: GET /users and GET /users/:id send every column of the stored
    row, the password hash among them; only POST /users answers with
    [id], [username] and [email] alone. *)
Theorem user_reads_send_password_hash :
  fst (GET_users (Sample.request None "" None) Sample.db)
  = Sent (json_reply 200 (JArr [user_json Sample.alice; user_json Sample.bob]))
  /\ fst (GET_users_id (Sample.request None "1" None) Sample.db)
     = Sent (json_reply 200 (user_json Sample.alice))
  /\ get "password" (user_json Sample.alice)
     = Some (JStr "$2b$10$N9qo8uLOickgx2ZMRZoMye")
  /\ has_field "password" (user_json Sample.bob) = true
  /\ fst (POST_users
            (Sample.request None ""
               (Some (JObj [("username", JStr "carol");
                            ("email", JStr "carol@example.com");
                            ("password", JStr "Secret#123")])))
            Sample.db)
     = Sent (json_reply 201
               (JObj [("id", int_json 3);
                      ("username", JStr "carol");
                      ("email", JStr "carol@example.com")])).
Proof.
  repeat split; vm_compute; reflexivity.
Qed.

(** ** Listing posts *)

Lemma GET_posts_descending (req : Request) (db : Db) :
  online db = true ->
  exists rows,
    GET_posts req db
    = (Sent (json_reply 200 (JArr (map post_with_user_json rows))), db)
    /\ Sorted (not_older PostWithUser.created_at) rows
    /\ Permutation (join_users (users db) (posts db)) rows.
Proof.
  intro Hon.
  exists (order_by_desc PostWithUser.created_at
            (join_users (users db) (posts db))).
  split; [| split].
  - unfold GET_posts. run_handler. now rewrite (select_all_posts db Hon).
  - apply order_by_desc_Sorted.
  - apply order_by_desc_Permutation.
Qed.

Lemma GET_users_id_posts_online (req : Request) (db : Db) :
  isNaN (Number (params_id req)) = false ->
  online db = true ->
  GET_users_id_posts req db
  = (Sent (json_reply 200
             (JArr (map post_json
                      (order_by_desc Post.created_at
                         (filter
                            (fun p => key_is (Number (params_id req))
                                        (Post.user_id p))
                            (posts db)))))),
     db).
Proof.
  intros Hn Hon. unfold GET_users_id_posts. run_handler. rewrite Hn.
  now rewrite (select_posts_of_user _ db Hon).
Qed.

Lemma GET_users_id_posts_descending (req : Request) (db : Db) :
  isNaN (Number (params_id req)) = false ->
  online db = true ->
  exists rows,
    GET_users_id_posts req db
    = (Sent (json_reply 200 (JArr (map post_json rows))), db)
    /\ Sorted (not_older Post.created_at) rows.
Proof.
  intros Hn Hon. eexists. split.
  - now apply GET_users_id_posts_online.
  - apply order_by_desc_Sorted.
Qed.

(** GET /users/:id/posts-with-user lists the joined rows in table order. *)
Lemma GET_users_id_posts_with_user_online (req : Request) (db : Db) :
  online db = true ->
  GET_users_id_posts_with_user req db
  = (Sent (json_reply 200
             (JArr (map post_with_user_json
                      (join_users
                         (filter
                            (fun u => key_is (Number (params_id req))
                                        (User.id u))
                            (users db))
                         (posts db))))),
     db).
Proof.
  intro Hon. unfold GET_users_id_posts_with_user. run_handler.
  now rewrite (select_posts_with_user _ db Hon).
Qed.

(** C3: GET /users/:id/posts-with-user has no ORDER BY: for a user whose
    older post is stored first it lists the older post first, where
    GET /users/:id/posts lists the newer one first. *)
Theorem posts_with_user_in_table_order :
  let older := PostWithUser.mk Sample.first_post "alice" "alice@example.com" in
  let newer := PostWithUser.mk Sample.second_post "alice" "alice@example.com" in
  fst (GET_users_id_posts_with_user (Sample.request None "1" None) Sample.db)
  = Sent (json_reply 200 (JArr (map post_with_user_json [older; newer])))
  /\ descending PostWithUser.created_at [older; newer] = false
  /\ fst (GET_users_id_posts (Sample.request None "1" None) Sample.db)
     = Sent (json_reply 200
               (JArr (map post_json [Sample.second_post; Sample.first_post]))).
Proof.
  repeat split; vm_compute; reflexivity.
Qed.

(** ** Storage failures *)

Lemma GET_users_offline (req : Request) (db : Db) :
  online db = false -> GET_users req db = (Sent internal_error, db).
Proof.
  intro Hoff. unfold GET_users. run_handler.
  now rewrite (execute_offline _ _ db Hoff).
Qed.

Lemma GET_users_id_handler_offline (req : Request) (db : Db) :
  online db = false -> GET_users_id_handler req db = (Sent internal_error, db).
Proof.
  intro Hoff. unfold GET_users_id_handler. run_handler.
  now rewrite (execute_offline _ _ db Hoff).
Qed.

Lemma GET_posts_offline (req : Request) (db : Db) :
  online db = false ->
  GET_posts req db = (Sent (error_reply 500 "Failed to fetch posts"), db).
Proof.
  intro Hoff. unfold GET_posts. run_handler.
  now rewrite (execute_offline _ _ db Hoff).
Qed.

Lemma GET_users_id_posts_offline (req : Request) (db : Db) :
  isNaN (Number (params_id req)) = false ->
  online db = false ->
  GET_users_id_posts req db
  = (Sent (error_reply 500 "Failed to fetch user posts"), db).
Proof.
  intros Hn Hoff. unfold GET_users_id_posts. run_handler. rewrite Hn.
  now rewrite (execute_offline _ _ db Hoff).
Qed.

(** A body inside [try]/[catch] always ends in a response. *)
Lemma try_catch_sends (m : M Response) (on_error : Response) (db : Db) :
  exists r, fst (try_catch m on_error db) = Sent r.
Proof.
  unfold try_catch. destruct (m db) as [[e | r] db']; eexists; reflexivity.
Qed.

(** With the storage out of reach the posts-with-user handler rejects. *)
Lemma GET_users_id_posts_with_user_offline (req : Request) (db : Db) :
  online db = false ->
  GET_users_id_posts_with_user req db = (Thrown Unreachable, db).
Proof.
  intro Hoff. unfold GET_users_id_posts_with_user. run_handler.
  now rewrite (execute_offline _ _ db Hoff).
Qed.

(** C6: the handler of GET /users/:id/posts-with-user has no [try]: when
    the storage call rejects, the failure leaves the handler and no 500 is
    sent, where GET /users/:id/posts answers 500. *)
Theorem posts_with_user_failure_escapes :
  GET_users_id_posts_with_user (Sample.request None "1" None) Sample.offline_db
  = (Thrown Unreachable, Sample.offline_db)
  /\ GET_users_id_posts (Sample.request None "1" None) Sample.offline_db
     = (Sent (error_reply 500 "Failed to fetch user posts"), Sample.offline_db).
Proof.
  split; vm_compute; reflexivity.
Qed.

(** ** GET /users/:id/posts and the id it accepts *)

(** C10: GET /users/:id/posts answers 400 exactly when [Number(id)] is NaN,
    with no storage access; for every other id it runs the posts query with
    the parsed number, answering 200 with that user's posts, or 500 when the
    storage fails. The ids "-2", "3.5", " 7 ", "0x1F" and "1e3" parse to
    numbers although the user-id validator rejects each of them. *)
Theorem GET_users_id_posts_gate (req : Request) (db : Db) :
  (isNaN (Number (params_id req)) = true ->
   GET_users_id_posts req db = (Sent (error_reply 400 "Invalid user ID"), db))
  /\ (isNaN (Number (params_id req)) = false ->
      GET_users_id_posts req db
      = if online db then
          (Sent (json_reply 200
                   (JArr (map post_json
                            (order_by_desc Post.created_at
                               (filter
                                  (fun p => key_is (Number (params_id req))
                                              (Post.user_id p))
                                  (posts db)))))),
           db)
        else (Sent (error_reply 500 "Failed to fetch user posts"), db))
  /\ map Number ["-2"; "3.5"; " 7 "; "0x1F"; "1e3"]
     = [Finite (-2); Finite (7 # 2); Finite 7; Finite 31; Finite 1000]
  /\ Forall
       (fun id =>
          validateUserId id
          = Reply (validation_failed ["ID must be a positive number"]))
       ["-2"; "3.5"; " 7 "; "0x1F"; "1e3"].
Proof.
  split; [| split; [| split]].
  - intro Hn. unfold GET_users_id_posts. run_handler. now rewrite Hn.
  - intro Hn. destruct (online db) eqn:Hon.
    + now apply GET_users_id_posts_online.
    + now apply GET_users_id_posts_offline.
  - vm_compute. reflexivity.
  - repeat constructor.
Qed.

(** C10 on the sample data: "0x1F" is no valid user id, and the posts of
    user 31 are looked up; "abc" is answered 400. *)
Lemma GET_users_id_posts_gate_witness :
  GET_users_id_posts (Sample.request None "0x1F" None) Sample.db
  = (Sent (json_reply 200 (JArr [])), Sample.db)
  /\ GET_users_id_posts (Sample.request None "abc" None) Sample.db
     = (Sent (error_reply 400 "Invalid user ID"), Sample.db).
Proof.
  destruct (GET_users_id_posts_gate (Sample.request None "0x1F" None) Sample.db)
    as (_ & Hnum & _).
  destruct (GET_users_id_posts_gate (Sample.request None "abc" None) Sample.db)
    as (Hnan & _).
  split.
  - rewrite Hnum; reflexivity.
  - apply Hnan. reflexivity.
Defined.

(** ** PATCH with nothing to update *)


(** With neither field truthy the handler sends [UPDATE users SET  WHERE
    id = ?], which the server refuses: the owner gets a 500. *)
Lemma PATCH_nothing_to_update (user_id : number) (req : Request) (db : Db)
  (fields : list (string * json)) :
  req_body req = Some (JObj fields) ->
  truthy (assoc "username" fields) = false ->
  truthy (assoc "email" fields) = false ->
  strict_neq user_id (Number (params_id req)) = false ->
  online db = true ->
  PATCH_users_id_handler user_id req db = (Sent internal_error, db).
Proof.
  intros Hb Hu He Hown Hon.
  unfold PATCH_users_id_handler, destructure. rewrite Hb.
  run_handler. rewrite Hown. unfold fieldsToUpdate. simpl get.
  rewrite Hu, He. simpl app.
  now rewrite (update_nothing _ db Hon).
Qed.

(** C4: the partial validator accepts the empty payload, but the owner's
    PATCH with it is answered 500 "Internal server error", the stored user
    unchanged: no assignment is left for the UPDATE statement. The same
    request with a username succeeds. *)
Theorem empty_patch_is_internal_error :
  let bearer := "Bearer " ++ generateToken Sample.secret 1000 1 in
  validatePartialUserData (Some (JObj [])) = Next tt
  /\ PATCH_users_id Sample.secret 2000
       (Sample.request (Some bearer) "1" (Some (JObj []))) Sample.db
     = (Sent internal_error, Sample.db)
  /\ fst (PATCH_users_id Sample.secret 2000
            (Sample.request (Some bearer) "1"
               (Some (JObj [("username", JStr "alicia")])))
            Sample.db)
     = Sent (json_reply 200
               (user_json
                  (User.mk 1 "alicia" "alice@example.com"
                     (User.password Sample.alice)))).
Proof.
  repeat split; vm_compute; reflexivity.
Qed.

(** ** Ownership *)

(** [req.body.key], [undefined] without a body. *)
Definition field (key : string) (req : Request) : option json :=
  match req_body req with
  | Some v => get key v
  | None => None
  end.


(** Reading a user leaves the database as it is. *)
Lemma select_user_by_id_pure (params : list param) (db : Db) :
  snd (execute "SELECT * FROM users WHERE id = ?" params db) = db.
Proof.
  destruct (online db) eqn:Hon.
  - run_online Hon. destruct params as [| [n | v] [| ? ?]]; reflexivity.
  - now rewrite (execute_offline _ _ db Hon).
Qed.

Lemma destructure_object (req : Request) (fields : list (string * json)) :
  req_body req = Some (JObj fields) ->
  destructure (req_body req) = ret (field "username" req, field "email" req).
Proof.
  intro Hb. unfold field. now rewrite Hb.
Qed.






Section Ownership.
Context {J : Jsonwebtoken}.
Variable JWT_SECRET : string.
Variable now : Z.


End Ownership.


(** ** Scenarios *)

(** POST /users with a valid body answers 201 with the new id. *)
Example scenario_create_user :
  fst (POST_users
         (Sample.request None ""
            (Some (JObj [("username", JStr "ab"); ("email", JStr "a@b.com")])))
         Sample.db)
  = Sent (json_reply 201
            (JObj [("id", int_json 3);
                   ("username", JStr "ab");
                   ("email", JStr "a@b.com")])).
Proof. vm_compute. reflexivity. Qed.

(** A protected route without the header answers 401. *)
Example scenario_no_header :
  DELETE_users_id Sample.secret 2000 (Sample.request None "1" None) Sample.db
  = (Sent (error_reply 401 "Access token required"), Sample.db).
Proof. vm_compute. reflexivity. Qed.

(** DELETE of a user that is not stored, by its owner, answers 404. *)
Example scenario_delete_missing :
  DELETE_users_id Sample.secret 2000
    (Sample.request (Some ("Bearer " ++ generateToken Sample.secret 1000 999))
       "999" None)
    Sample.db
  = (Sent not_found,
     Sample.db).
Proof. vm_compute. reflexivity. Qed.

(** DELETE of a stored user without posts, by its owner, answers 204 and
    removes the row. *)
Example scenario_delete_own :
  DELETE_users_id Sample.secret 2000
    (Sample.request (Some ("Bearer " ++ generateToken Sample.secret 1000 2))
       "2" None)
    Sample.db
  = (Sent {| status := 204; body := None |},
     mkDb [Sample.alice] (posts Sample.db) 3 true).
Proof. vm_compute. reflexivity. Qed.

(** An expired token answers 403. *)
Example scenario_expired_token :
  DELETE_users_id Sample.secret 90000
    (Sample.request (Some ("Bearer " ++ generateToken Sample.secret 1000 2))
       "2" None)
    Sample.db
  = (Sent (error_reply 403 "Invalid or expired token"), Sample.db).
Proof. vm_compute. reflexivity. Qed.

(** * Further properties *)

(** ** Ids that pass the validator, as numbers *)

Definition digit_chars : list ascii :=
  ["0"; "1"; "2"; "3"; "4"; "5"; "6"; "7"; "8"; "9"]%char.

Lemma digit_cases (c : ascii) : is_digit c = true -> In c digit_chars.
Proof.
  destruct c as [[] [] [] [] [] [] [] []]; intro H;
    try discriminate H; simpl; intuition reflexivity.
Qed.

(** Runs [tac] for each of the ten digits [c] can be. *)
Ltac each_digit c H tac :=
  let Hin := fresh "Hin" in
  pose proof (digit_cases c H) as Hin; simpl in Hin;
  repeat (destruct Hin as [Hin | Hin]; [subst c; tac |]);
  try contradiction.

Lemma digit_not_space (c : ascii) : is_digit c = true -> is_space c = false.
Proof.
  intro H. each_digit c H ltac:(reflexivity).
Qed.

Lemma digit_value_digit (c : ascii) :
  is_digit c = true ->
  exists v, digit_value 10 c = Some v /\ 0 <= v < 10.
Proof.
  intro H.
  each_digit c H ltac:(eexists; split; [reflexivity | vm_compute; intuition discriminate]).
Qed.

Lemma append_empty (s : string) : (s ++ "")%string = s.
Proof.
  induction s as [| c rest IH]; simpl; [reflexivity | now rewrite IH].
Qed.

Lemma trim_end_digits (s : string) :
  all is_digit s = true -> trim_end s = s.
Proof.
  induction s as [| c rest IH]; simpl; [reflexivity |].
  rewrite andb_true_iff. intros [Hc Hrest]. rewrite (IH Hrest).
  destruct rest; [now rewrite (digit_not_space c Hc) | reflexivity].
Qed.

Lemma trim_digits (s : string) : all is_digit s = true -> trim s = s.
Proof.
  intro H. unfold trim.
  replace (trim_start s) with s; [now apply trim_end_digits |].
  destruct s as [| c rest]; [reflexivity |]. simpl in *.
  apply andb_true_iff in H. destruct H as [Hc _].
  now rewrite (digit_not_space c Hc).
Qed.

Lemma span_digits (s : string) :
  all is_digit s = true -> span is_digit s = (s, EmptyString).
Proof.
  induction s as [| c rest IH]; simpl; [reflexivity |].
  rewrite andb_true_iff. intros [Hc Hrest]. now rewrite Hc, (IH Hrest).
Qed.

Lemma digits_value_digits (s : string) :
  all is_digit s = true ->
  forall acc, 0 <= acc ->
  exists v, digits_value 10 acc s = Some v /\ 0 <= v.
Proof.
  induction s as [| c rest IH]; simpl.
  - intros _ acc Hacc. now exists acc.
  - rewrite andb_true_iff. intros [Hc Hrest] acc Hacc.
    destruct (digit_value_digit c Hc) as (v & -> & Hv).
    apply (IH Hrest). lia.
Qed.

(** The decimal value of an id, when it is a run of digits. *)
Definition id_value (id : string) : option Z :=
  if digits_only id then digits_value 10 0 id else None.

Lemma id_value_digits (id : string) (n : Z) :
  id_value id = Some n ->
  digits_only id = true /\ digits_value 10 0 id = Some n /\ 0 <= n.
Proof.
  unfold id_value. destruct (digits_only id) eqn:Hd; [| discriminate].
  intro Hv. repeat split; try assumption.
  assert (Hall : all is_digit id = true) by (now destruct id).
  destruct (digits_value_digits id Hall 0 (Z.le_refl 0)) as (v & Hv' & Hpos).
  congruence.
Qed.

Lemma decimal_literal_digits (s : string) (n : Z) :
  id_value s = Some n -> decimal_literal s = of_Z n.
Proof.
  intro Hid. destruct (id_value_digits s n Hid) as (Hd & Hv & _).
  destruct s as [| c rest]; [discriminate |].
  assert (Hall : all is_digit (String c rest) = true) by exact Hd.
  assert (Hc : is_digit c = true).
  { simpl in Hall. now apply andb_true_iff in Hall. }
  unfold decimal_literal.
  assert (Hsign : sign (String c rest) = (false, String c rest)).
  { each_digit c Hc ltac:(reflexivity). }
  rewrite Hsign.
  assert (Hinf : String.eqb (String c rest) "Infinity" = false).
  { each_digit c Hc ltac:(reflexivity). }
  rewrite Hinf. unfold unsigned_decimal. rewrite (span_digits _ Hall).
  cbv beta iota. rewrite append_empty, Hv. simpl.
  now rewrite Z.mul_1_r.
Qed.

(** [Number] of a validated id is the double nearest to its decimal
    value. *)
Lemma Number_digits (id : string) (n : Z) :
  id_value id = Some n -> Number id = of_Z n.
Proof.
  intro Hid. destruct (id_value_digits id n Hid) as (Hd & Hv & _).
  assert (Hall : all is_digit id = true) by (now destruct id).
  unfold Number. rewrite (trim_digits id Hall).
  destruct id as [| c [| x rest]]; [discriminate | |];
    try (destruct c as [[] [] [] [] [] [] [] []];
         now apply decimal_literal_digits).
  assert (Hx : is_digit x = true).
  { simpl in Hall. apply andb_true_iff in Hall. destruct Hall as [_ Hall].
    now apply andb_true_iff in Hall. }
  assert (Hprefix : one_of "xX" x = false /\ one_of "oO" x = false
                    /\ one_of "bB" x = false).
  { each_digit x Hx ltac:(repeat split; reflexivity). }
  destruct Hprefix as (Hx1 & Hx2 & Hx3).
  destruct c as [[] [] [] [] [] [] [] []];
    try (now apply decimal_literal_digits).
  rewrite Hx1, Hx2, Hx3. now apply decimal_literal_digits.
Qed.

(** ** Integers that doubles hold exactly *)

Lemma Qred_inject_Z (z : Z) : Qred (inject_Z z) = inject_Z z.
Proof.
  unfold Qred, inject_Z.
  pose proof (Z.ggcd_gcd z 1) as Hg.
  pose proof (Z.ggcd_correct_divisors z 1) as Hd.
  destruct (Z.ggcd z 1) as [g [aa bb]]. simpl in *.
  rewrite Z.gcd_1_r in Hg. subst g. destruct Hd as [Ha Hb].
  assert (Hbb : bb = 1) by lia. assert (Haa : aa = z) by lia.
  rewrite Hbb, Haa. reflexivity.
Qed.

Lemma round_half_even_whole (n : Z) : round_half_even n 1 = n.
Proof.
  unfold round_half_even. now rewrite Z.mod_1_r, Z.div_1_r.
Qed.

(** Below [2^53] every natural number is its own double. *)
Lemma of_Z_exact (z : Z) :
  0 <= z < 2 ^ 53 -> of_Z z = Finite (inject_Z z).
Proof.
  intros [Hlo Hhi]. unfold of_Z, to_double.
  change (Qnum (inject_Z z)) with z.
  change (Z.pos (Qden (inject_Z z))) with 1.
  destruct (Z.eqb_spec z 0) as [-> | Hnz]; [reflexivity |].
  assert (Hpos : 0 < z) by lia.
  rewrite (Z.abs_eq z Hlo). change (Z.log2 1) with 0. rewrite Z.sub_0_r.
  pose proof (Z.log2_nonneg z) as Hl0.
  pose proof (Z.log2_spec z Hpos) as [Hl1 Hl2].
  assert (Hl52 : Z.log2 z <= 52).
  { assert (Z.log2 z < 53); [| lia].
    apply Z.log2_lt_pow2; [exact Hpos | exact Hhi]. }
  cbv zeta. unfold ge_pow2.
  destruct (Z.leb_spec 0 (Z.log2 z)) as [_ | ?]; [| lia].
  destruct (Z.leb_spec (1 * 2 ^ Z.log2 z) z) as [_ | ?]; [| lia].
  rewrite (Z.max_l (Z.log2 z - 52) (-1074)) by lia.
  destruct (Z.ltb_spec z 0) as [? | _]; [lia |].
  destruct (Z.leb_spec 0 (Z.log2 z - 52)) as [He | He].
  - assert (Hz : Z.log2 z - 52 = 0) by lia. rewrite Hz.
    change (1 * 2 ^ 0) with 1. change (2 ^ 0) with 1.
    rewrite round_half_even_whole, Z.mul_1_r.
    destruct (Z.leb_spec (2 ^ 1024) z) as [Hbig | _].
    + exfalso. assert (2 ^ 53 < 2 ^ 1024) by (vm_compute; reflexivity). lia.
    + cbn [andb]. now rewrite Qred_inject_Z.
  - rewrite round_half_even_whole. cbn [andb].
    f_equal. rewrite <- (Qred_inject_Z z). apply Qred_complete.
    unfold Qeq. simpl.
    assert (Hp : 0 < 2 ^ (- (Z.log2 z - 52))) by (apply Z.pow_pos_nonneg; lia).
    rewrite Z2Pos.id by exact Hp. lia.
Qed.

(** A stored key equals such a number exactly when it is that integer. *)
Lemma key_is_integer (n k : Z) :
  key_is (Finite (inject_Z n)) k = (k =? n).
Proof.
  unfold key_is.
  destruct (Z.eqb_spec k n) as [-> | Hne].
  - apply Qeq_bool_iff. reflexivity.
  - destruct (Qeq_bool (inject_Z n) (inject_Z k)) eqn:Hq; [| reflexivity].
    apply Qeq_bool_iff in Hq. unfold Qeq in Hq. simpl in Hq. lia.
Qed.

(** An id that denotes [n], a number doubles hold exactly. *)
Definition denotes (id : string) (n : Z) : Prop :=
  id_value id = Some n /\ n < 2 ^ 53.

Lemma denotes_Number (id : string) (n : Z) :
  denotes id n -> Number id = Finite (inject_Z n) /\ 0 <= n.
Proof.
  intros [Hv Hhi]. destruct (id_value_digits id n Hv) as (_ & _ & Hlo).
  split; [| exact Hlo].
  rewrite (Number_digits id n Hv). now apply of_Z_exact.
Qed.

Lemma denotes_valid (id : string) (n : Z) :
  denotes id n -> validateUserId id = Next tt.
Proof.
  intros [Hv _]. apply validateUserId_accepts_iff.
  now destruct (id_value_digits id n Hv).
Qed.

Lemma to_double_not_NaN (q : Q) : isNaN (to_double q) = false.
Proof.
  unfold to_double. destruct (Qnum q =? 0); [reflexivity |]. cbv zeta.
  match goal with |- context [if ?b then Infinite _ else _] => destruct b end;
    reflexivity.
Qed.

(** validateUserId accepts exactly the non-empty runs of decimal digits,
    zero and leading zeros included; every other id is answered 400 with
    the one message "ID must be a positive number". *)
Theorem user_id_validator (id : string) :
  (validateUserId id = Next tt <-> id <> "" /\ all is_digit id = true)
  /\ (validateUserId id <> Next tt ->
      validateUserId id
      = Reply (validation_failed ["ID must be a positive number"])).
Proof.
  split.
  - rewrite validateUserId_accepts_iff. unfold digits_only.
    destruct id as [| c rest].
    + split; [discriminate | intros [H _]; now contradiction H].
    + split; [intro H; split; [discriminate | exact H] | now intros [_ H]].
  - intro Hno. assert (Hd : digits_only id = false).
    { destruct (digits_only id) eqn:Hd; [| reflexivity].
      contradiction Hno. now apply validateUserId_accepts_iff. }
    unfold validateUserId. simpl. now rewrite Hd.
Qed.

Lemma user_id_validator_witness :
  validateUserId "12a"
  = Reply (validation_failed ["ID must be a positive number"]).
Proof.
  apply (proj2 (user_id_validator "12a")). discriminate.
Defined.

(** For every id that validateUserId accepts, [Number(id)] in the handler
    is the double nearest to the id's decimal value: never NaN, and the
    value itself below [2^53]. *)
Theorem validated_id_is_a_number (id : string) :
  validateUserId id = Next tt ->
  exists n,
    0 <= n
    /\ digits_value 10 0 id = Some n
    /\ Number id = of_Z n
    /\ isNaN (Number id) = false
    /\ (n < 2 ^ 53 -> Number id = Finite (inject_Z n)).
Proof.
  intro Hv. apply validateUserId_accepts_iff in Hv.
  assert (Hall : all is_digit id = true) by (now destruct id).
  destruct (digits_value_digits id Hall 0 (Z.le_refl 0)) as (n & Hn & Hpos).
  assert (Hid : id_value id = Some n) by (unfold id_value; now rewrite Hv).
  exists n. repeat split; try assumption.
  - now apply Number_digits.
  - rewrite (Number_digits id n Hid). apply to_double_not_NaN.
  - intro Hhi. now apply denotes_Number.
Qed.

Lemma validated_id_is_a_number_witness :
  exists n,
    0 <= n
    /\ digits_value 10 0 "007" = Some n
    /\ Number "007" = of_Z n
    /\ isNaN (Number "007") = false
    /\ (n < 2 ^ 53 -> Number "007" = Finite (inject_Z n)).
Proof.
  apply (validated_id_is_a_number "007"). reflexivity.
Defined.

Lemma required_user_data_rules (body : option json) :
  validateRequiredUserData body = Next tt <->
  exists fields u e,
    body = Some (JObj fields)
    /\ assoc "username" fields = Some (JStr u)
    /\ (2 <= String.length u <= 50)%nat
    /\ assoc "email" fields = Some (JStr e)
    /\ is_email e = true.
Proof.
  rewrite validateRequiredUserData_accepts_iff. split.
  - intros (fields & -> & Hu & He).
    destruct (assoc "username" fields) as [[]|] eqn:Eu; simpl in Hu;
      try tauto.
    destruct (assoc "email" fields) as [[]|] eqn:Ee; simpl in He; try tauto.
    now exists fields, s, s0.
  - intros (fields & u & e & -> & Hu & Hlen & He & Hmail).
    exists fields. rewrite Hu, He. simpl. tauto.
Qed.

(** validateRequiredUserData accepts exactly the objects whose username is
    a string of 2 to 50 code units and whose email is a string of the email
    pattern; any other body, a missing one included, is answered 400 with at
    least one message. *)
Theorem required_user_data_validator (body : option json) :
  (validateRequiredUserData body = Next tt <->
   exists fields u e,
     body = Some (JObj fields)
     /\ assoc "username" fields = Some (JStr u)
     /\ (2 <= String.length u <= 50)%nat
     /\ assoc "email" fields = Some (JStr e)
     /\ is_email e = true)
  /\ (validateRequiredUserData body = Next tt
      \/ exists messages,
           messages <> []
           /\ validateRequiredUserData body
              = Reply (validation_failed messages)).
Proof.
  split.
  - apply required_user_data_rules.
  - destruct (validate_cases (requiredUserDataSchema body)) as [H | [Hne H]].
    + now left.
    + right. eexists. split; eassumption.
Qed.

(** ** Registration *)

Lemma z_string_regex (matches : string -> bool) (msg : string)
  (v : option json) :
  z_string None [regex matches msg] v = []
  <-> exists s, v = Some (JStr s) /\ matches s = true.
Proof.
  destruct v as [[]|]; simpl;
    try (split; [discriminate | intros (x & E & _); discriminate]).
  destruct (matches s) eqn:Hm; simpl; split.
  - intros _. now exists s.
  - reflexivity.
  - discriminate.
  - intros (x & E & Hx). inversion E; subst. congruence.
Qed.

Lemma z_string_lengths (lo hi : nat) (m1 m2 : string) (v : option json) :
  z_string None [min lo m1; max hi m2] v = []
  <-> exists s, v = Some (JStr s) /\ (lo <= String.length s <= hi)%nat.
Proof.
  destruct v as [[]|]; simpl;
    try (split; [discriminate | intros (x & E & _); discriminate]).
  destruct (Nat.ltb_spec (String.length s) lo);
    destruct (Nat.ltb_spec hi (String.length s)); simpl; split;
    try discriminate;
    try (intros (x & E & Hx); inversion E; subst; lia);
    try reflexivity.
  intros _. exists s. split; [reflexivity | lia].
Qed.

Lemma z_email_string (msg : string) (v : option json) :
  z_email msg v = [] <-> exists e, v = Some (JStr e) /\ is_email e = true.
Proof.
  destruct v as [[]|]; simpl;
    try (split; [discriminate | intros (x & E & _); discriminate]).
  destruct (is_email s) eqn:Hm; split.
  - intros _. now exists s.
  - reflexivity.
  - discriminate.
  - intros (x & E & Hx). inversion E; subst. congruence.
Qed.

Lemma validateRegistration_accepts_iff (body : option json) :
  validateRegistration body = Next tt <->
  exists fields u e p,
    body = Some (JObj fields)
    /\ assoc "username" fields = Some (JStr u)
    /\ (3 <= String.length u <= 50)%nat
    /\ assoc "email" fields = Some (JStr e) /\ is_email e = true
    /\ assoc "password" fields = Some (JStr p) /\ password_policy p = true.
Proof.
  unfold validateRegistration. rewrite validate_Next.
  destruct body as [[]|];
    try (split; [discriminate
                | intros (f & u & e & p & E & _); discriminate]).
  unfold registerSchema, z_object. cbn [flat_map].
  rewrite app_nil_r, !app_nil_iff, z_string_lengths, z_email_string,
    z_string_regex.
  split.
  - intros ((u & Hu & Hlen) & (e & He & Hmail) & (p & Hp & Hpol)).
    now exists fields, u, e, p.
  - intros (f & u & e & p & E & Hu & Hlen & He & Hmail & Hp & Hpol).
    inversion E; subst f.
    split; [| split]; eexists; split; eassumption.
Qed.

(** A body that passes validateRegistration also passes validateLogin and
    validateRequiredUserData: who can register can log in with the same
    body, and the same body creates a user. *)
Theorem registration_body_passes_login_and_create (body : option json) :
  validateRegistration body = Next tt ->
  validateLogin body = Next tt /\ validateRequiredUserData body = Next tt.
Proof.
  intro H. apply validateRegistration_accepts_iff in H.
  destruct H as (fields & u & e & p & -> & Hu & Hlen & He & Hmail & Hp & _).
  split.
  - unfold validateLogin. apply validate_Next. simpl.
    rewrite He, Hp. simpl. now rewrite Hmail.
  - apply validateRequiredUserData_accepts_iff. exists fields.
    rewrite Hu, He. simpl. split; [reflexivity |]. split; [lia | exact Hmail].
Qed.

Lemma registration_body_passes_login_and_create_witness :
  let body :=
    Some (JObj [("username", JStr "alice");
                ("email", JStr "alice@example.com");
                ("password", JStr "Secret#123")]) in
  validateLogin body = Next tt /\ validateRequiredUserData body = Next tt.
Proof.
  apply registration_body_passes_login_and_create. reflexivity.
Defined.

(** ** Routes that only read *)

Ltac select_pure db :=
  let Hon := fresh "Hon" in
  destruct (online db) eqn:Hon;
  [ run_online Hon | now rewrite (execute_offline _ _ db Hon) ].

Lemma select_all_users_pure (params : list param) (db : Db) :
  snd (execute "SELECT * FROM users" params db) = db.
Proof.
  select_pure db. destruct params; reflexivity.
Qed.

Lemma select_posts_of_user_pure (params : list param) (db : Db) :
  snd (execute
         "SELECT posts.id, posts.title, posts.content, posts.user_id, posts.created_at FROM posts WHERE posts.user_id = ? ORDER BY posts.created_at DESC"
         params db) = db.
Proof.
  select_pure db. destruct params as [| [n | v] [| ? ?]]; reflexivity.
Qed.

Lemma select_posts_with_user_pure (params : list param) (db : Db) :
  snd (execute
         "
    SELECT posts.id, posts.title, posts.content, posts.user_id, posts.created_at,
           users.username, users.email
    FROM posts
    INNER JOIN users ON posts.user_id = users.id
    WHERE users.id = ?
  "
         params db) = db.
Proof.
  select_pure db. destruct params as [| [n | v] [| ? ?]]; reflexivity.
Qed.

Lemma select_all_posts_pure (params : list param) (db : Db) :
  snd (execute
         "SELECT posts.id, posts.title, posts.content, posts.user_id, posts.created_at, users.username, users.email FROM posts INNER JOIN users ON posts.user_id = users.id ORDER BY posts.created_at DESC"
         params db) = db.
Proof.
  select_pure db. destruct params; reflexivity.
Qed.

(** A handler body made of one SELECT leaves the database as it was. *)
Ltac one_select Hpure :=
  run_handler;
  match goal with
  | |- context [execute ?q ?v ?db] =>
      let H := fresh "H" in
      pose proof (Hpure v db) as H;
      destruct (execute q v db) as [[e | [| | |]] db']; simpl in H; subst db';
      try reflexivity
  end.

(** The five GET routes never change the database, whatever the request
    and whether or not the storage answers. *)
Theorem read_routes_leave_database (req : Request) (db : Db) :
  snd (GET_users req db) = db
  /\ snd (GET_users_id req db) = db
  /\ snd (GET_users_id_posts req db) = db
  /\ snd (GET_users_id_posts_with_user req db) = db
  /\ snd (GET_posts req db) = db.
Proof.
  split; [| split; [| split; [| split]]].
  - unfold GET_users. one_select select_all_users_pure.
  - unfold GET_users_id, through.
    destruct (validateUserId (params_id req)); [reflexivity |].
    unfold GET_users_id_handler. one_select select_user_by_id_pure;
      match goal with
      | |- context [match map ?f ?l with _ => _ end] => now destruct l
      end.
  - unfold GET_users_id_posts. run_handler.
    destruct (isNaN (Number (params_id req))); [reflexivity |].
    one_select select_posts_of_user_pure.
  - unfold GET_users_id_posts_with_user.
    one_select select_posts_with_user_pure.
  - unfold GET_posts. one_select select_all_posts_pure.
Qed.

(** ** Requests that are not let through *)

Section Gatekeeping.
Context {J : Jsonwebtoken}.
Variable JWT_SECRET : string.
Variable now : Z.

Lemma authenticateToken_rejects (authorization : option string) :
  (forall h payload,
     authorization = Some h ->
     verifyToken JWT_SECRET now (substring_from 7 h) <> Some payload) ->
  exists r,
    authenticateToken JWT_SECRET now authorization = Reply r
    /\ (status r = 401 \/ status r = 403).
Proof.
  intro Hno. unfold authenticateToken.
  destruct authorization as [h |];
    [| eexists; split; [reflexivity | now left]].
  destruct (String.eqb h ""); [eexists; split; [reflexivity | now left] |].
  destruct (startsWith "Bearer " h); cbn [negb];
    [| eexists; split; [reflexivity | now left]].
  destruct (verifyToken JWT_SECRET now (substring_from 7 h)) eqn:Hv.
  - exfalso. exact (Hno h c eq_refl Hv).
  - eexists; split; [reflexivity | now right].
Qed.

(** A PUT, PATCH or DELETE whose Authorization header holds no token that
    verifies at the time of the request is answered 401 or 403 and leaves
    the database as it was, whatever the path id and the body. *)
Theorem unauthenticated_requests_change_nothing (req : Request) (db : Db) :
  (forall h payload,
     headers_authorization req = Some h ->
     verifyToken JWT_SECRET now (substring_from 7 h) <> Some payload) ->
  exists r,
    (status r = 401 \/ status r = 403)
    /\ PUT_users_id JWT_SECRET now req db = (Sent r, db)
    /\ PATCH_users_id JWT_SECRET now req db = (Sent r, db)
    /\ DELETE_users_id JWT_SECRET now req db = (Sent r, db).
Proof.
  intro Hno.
  destruct (authenticateToken_rejects (headers_authorization req) Hno)
    as (r & Hr & Hs).
  exists r. unfold PUT_users_id, PATCH_users_id, DELETE_users_id, through.
  rewrite Hr. repeat split; assumption || reflexivity.
Qed.

(** The header "Bearer " followed by a token issued for [uid] authenticates
    as [uid] until 24 hours after the issue, and is answered 403 "Invalid
    or expired token" from then on. *)
Theorem bearer_token_authenticates (issued uid at_time : Z) :
  let header := Some ("Bearer " ++ generateToken JWT_SECRET issued uid) in
  (at_time < issued + 86400 ->
   authenticateToken JWT_SECRET at_time header = Next (of_Z uid))
  /\ (issued + 86400 <= at_time ->
      authenticateToken JWT_SECRET at_time header
      = Reply (error_reply 403 "Invalid or expired token")).
Proof.
  cbv zeta. split; intro H.
  - now apply authenticateToken_fresh.
  - unfold authenticateToken. simpl. now rewrite verifyToken_expired.
Qed.

(** An id that is not a run of digits is answered 400 "ID must be a
    positive number" by GET /users/:id, and by PUT, PATCH and DELETE once the
    token is accepted, before the body is looked at and without any storage
    access. *)
Theorem invalid_id_is_rejected_first (req : Request) (db : Db)
  (user_id : number) :
  digits_only (params_id req) = false ->
  let reply := validation_failed ["ID must be a positive number"] in
  GET_users_id req db = (Sent reply, db)
  /\ (authenticateToken JWT_SECRET now (headers_authorization req)
      = Next user_id ->
      PUT_users_id JWT_SECRET now req db = (Sent reply, db)
      /\ PATCH_users_id JWT_SECRET now req db = (Sent reply, db)
      /\ DELETE_users_id JWT_SECRET now req db = (Sent reply, db)).
Proof.
  intro Hd. cbv zeta.
  assert (Hv : validateUserId (params_id req)
               = Reply (validation_failed ["ID must be a positive number"])).
  { unfold validateUserId. simpl. now rewrite Hd. }
  split.
  - unfold GET_users_id, through. now rewrite Hv.
  - intro Ha. unfold PUT_users_id, PATCH_users_id, DELETE_users_id, through.
    now rewrite Ha, Hv.
Qed.

End Gatekeeping.

Lemma unauthenticated_requests_change_nothing_witness :
  exists r,
    (status r = 401 \/ status r = 403)
    /\ PUT_users_id Sample.secret 2000
         (Sample.request (Some "Bearer 1.1000.87400.forged") "1" None) Sample.db
       = (Sent r, Sample.db)
    /\ PATCH_users_id Sample.secret 2000
         (Sample.request (Some "Bearer 1.1000.87400.forged") "1" None) Sample.db
       = (Sent r, Sample.db)
    /\ DELETE_users_id Sample.secret 2000
         (Sample.request (Some "Bearer 1.1000.87400.forged") "1" None) Sample.db
       = (Sent r, Sample.db).
Proof.
  apply (unauthenticated_requests_change_nothing Sample.secret 2000
           (Sample.request (Some "Bearer 1.1000.87400.forged") "1" None)
           Sample.db).
  intros h payload [= <-]. discriminate.
Defined.

Lemma bearer_token_authenticates_witness :
  authenticateToken Sample.secret 2000
    (Some ("Bearer " ++ generateToken Sample.secret 1000 7))
  = Next (of_Z 7)
  /\ authenticateToken Sample.secret 87400
       (Some ("Bearer " ++ generateToken Sample.secret 1000 7))
     = Reply (error_reply 403 "Invalid or expired token").
Proof.
  destruct (bearer_token_authenticates Sample.secret 1000 7 2000) as [Hfresh _].
  destruct (bearer_token_authenticates Sample.secret 1000 7 87400)
    as [_ Hexpired].
  split; [apply Hfresh; reflexivity | apply Hexpired; discriminate].
Defined.

Lemma invalid_id_is_rejected_first_witness :
  GET_users_id (Sample.request None "1;DROP" None) Sample.offline_db
  = (Sent (validation_failed ["ID must be a positive number"]),
     Sample.offline_db).
Proof.
  apply (invalid_id_is_rejected_first Sample.secret 0
           (Sample.request None "1;DROP" None) Sample.offline_db NaN).
  reflexivity.
Defined.

(** ** What the mutating statements do *)

Lemma hd_filter_find {A : Type} (p : A -> bool) (l : list A) :
  hd_error (filter p l) = find p l.
Proof.
  induction l as [| x rest IH]; simpl; [reflexivity |].
  now destruct (p x).
Qed.

Lemma filter_map_same {A : Type} (p : A -> bool) (f : A -> A) (l : list A) :
  (forall x, p (f x) = p x) -> filter p (map f l) = map f (filter p l).
Proof.
  intro Hp. induction l as [| x rest IH]; simpl; [reflexivity |].
  rewrite Hp. destruct (p x); simpl; now rewrite IH.
Qed.

Lemma count_none {A : Type} (p : A -> bool) (l : list A) :
  (count p l =? 0) = negb (existsb p l).
Proof.
  unfold count. induction l as [| x rest IH]; simpl; [reflexivity |].
  destruct (p x); simpl; [| exact IH].
  destruct (Z.eqb_spec (Z.of_nat (S (List.length (filter p rest)))) 0);
    [lia | reflexivity].
Qed.

Lemma map_none_hit {A : Type} (p : A -> bool) (f : A -> A) (l : list A) :
  existsb p l = false -> map (fun x => if p x then f x else x) l = l.
Proof.
  induction l as [| x rest IH]; simpl; [reflexivity |].
  rewrite orb_false_iff. intros [Hx Hrest]. now rewrite Hx, (IH Hrest).
Qed.

Lemma filter_none_hit {A : Type} (p : A -> bool) (l : list A) :
  existsb p l = false -> filter (fun x => negb (p x)) l = l.
Proof.
  induction l as [| x rest IH]; simpl; [reflexivity |].
  rewrite orb_false_iff. intros [Hx Hrest]. now rewrite Hx, (IH Hrest).
Qed.

Lemma existsb_same {A : Type} (p q : A -> bool) (l : list A) :
  (forall x, p x = q x) -> existsb p l = existsb q l.
Proof.
  intro H. induction l as [| x rest IH]; simpl; [reflexivity |].
  now rewrite H, IH.
Qed.

Lemma Db_eta (db : Db) :
  mkDb (users db) (posts db) (next_id db) (online db) = db.
Proof. now destruct db. Qed.

(** The rows of [db] with the key [n] rewritten by [f]. *)
Definition rewrite_user (n : Z) (f : User.t -> User.t) (db : Db) : Db :=
  mkDb (map (fun r => if User.id r =? n then f r else r) (users db))
    (posts db) (next_id db) (online db).

Lemma rewrite_user_none (n : Z) (f : User.t -> User.t) (db : Db) :
  existsb (fun r => User.id r =? n) (users db) = false ->
  rewrite_user n f db = db.
Proof.
  intro H. unfold rewrite_user.
  rewrite (map_none_hit (fun r => User.id r =? n) f _ H). apply Db_eta.
Qed.

Ltac integer_keys :=
  unfold rewrite_user, count;
  repeat first
    [ reflexivity
    | apply filter_ext; intro; apply key_is_integer
    | apply map_ext; intro; rewrite key_is_integer; reflexivity
    | progress f_equal ].

(** Reads the assignments of an UPDATE and applies them. *)
Ltac run_update Hon :=
  unfold rewrite_user; run_online Hon;
  match goal with
  | |- context [update_columns ?q] =>
      let v := eval vm_compute in (update_columns q) in
      change (update_columns q) with v
  end;
  cbn [assignments apply_assignments fold_left set_column
       User.id User.username User.email User.password].

Lemma update_both (u e : string) (n : Z) (db : Db) :
  online db = true ->
  execute "UPDATE users SET username = ?, email = ? WHERE id = ?"
    [PVal (Some (JStr u)); PVal (Some (JStr e)); PNum (Finite (inject_Z n))] db
  = (inr (Header 0 (count (fun r => User.id r =? n) (users db))),
     rewrite_user n (fun r => User.mk (User.id r) u e (User.password r)) db).
Proof.
  intro Hon. run_update Hon. integer_keys.
Qed.

Lemma update_username (u : string) (n : Z) (db : Db) :
  online db = true ->
  execute "UPDATE users SET username = ? WHERE id = ?"
    [PVal (Some (JStr u)); PNum (Finite (inject_Z n))] db
  = (inr (Header 0 (count (fun r => User.id r =? n) (users db))),
     rewrite_user n
       (fun r => User.mk (User.id r) u (User.email r) (User.password r)) db).
Proof.
  intro Hon. run_update Hon. integer_keys.
Qed.

Lemma update_email (e : string) (n : Z) (db : Db) :
  online db = true ->
  execute "UPDATE users SET email = ? WHERE id = ?"
    [PVal (Some (JStr e)); PNum (Finite (inject_Z n))] db
  = (inr (Header 0 (count (fun r => User.id r =? n) (users db))),
     rewrite_user n
       (fun r => User.mk (User.id r) (User.username r) e (User.password r)) db).
Proof.
  intro Hon. run_update Hon. integer_keys.
Qed.

Lemma select_user_by_integer (n : Z) (db : Db) :
  online db = true ->
  execute "SELECT * FROM users WHERE id = ?" [PNum (Finite (inject_Z n))] db
  = (inr (UserRows (filter (fun r => User.id r =? n) (users db))), db).
Proof.
  intro Hon. rewrite (select_user_by_id _ db Hon). integer_keys.
Qed.

Lemma delete_unreferenced (n : Z) (db : Db) :
  online db = true ->
  existsb (fun p => Post.user_id p =? n) (posts db) = false ->
  execute "DELETE FROM users WHERE id = ?" [PNum (Finite (inject_Z n))] db
  = (inr (Header 0 (count (fun r => User.id r =? n) (users db))),
     mkDb (filter (fun r => negb (User.id r =? n)) (users db)) (posts db)
       (next_id db) (online db)).
Proof.
  intros Hon Hposts. run_online Hon.
  assert (Href : existsb (fun p => key_is (Finite (inject_Z n)) (Post.user_id p))
                   (posts db) = false).
  { rewrite <- Hposts. apply existsb_same. intro. apply key_is_integer. }
  rewrite Href. cbn [andb].
  f_equal; [integer_keys |].
  f_equal. apply filter_ext. intro. now rewrite key_is_integer.
Qed.

(** The same number on both sides of the ownership check. *)
Lemma own_account (n : Z) :
  strict_neq (Finite (inject_Z n)) (Finite (inject_Z n)) = false.
Proof.
  unfold strict_neq. apply negb_false_iff, Qeq_bool_iff. reflexivity.
Qed.

(** The value a PATCH leaves in a column: the supplied string unless it is
    absent or empty. *)
Definition supplied (v : option json) (old : string) : string :=
  match v with
  | Some (JStr s) => if String.eqb s "" then old else s
  | _ => old
  end.

Definition patched (username email : option json) (r : User.t) : User.t :=
  User.mk (User.id r) (supplied username (User.username r))
    (supplied email (User.email r)) (User.password r).

Lemma patch_statement (username email : option json) (n : Z) (db : Db) :
  if_present username_ok username ->
  if_present is_string email ->
  truthy username || truthy email = true ->
  online db = true ->
  execute (query (fieldsToUpdate username email))
    (values username email (Finite (inject_Z n))) db
  = (inr (Header 0 (count (fun r => User.id r =? n) (users db))),
     rewrite_user n (patched username email) db).
Proof.
  intros Hu He Hsome Hon.
  destruct username as [[| | | u | |] |]; simpl in Hu; try contradiction;
    destruct email as [[| | | e | |] |]; simpl in He; try contradiction;
    try (destruct u as [| c u']; [simpl in Hu; lia |]);
    try (destruct e as [| d e']);
    try discriminate Hsome;
    unfold fieldsToUpdate, values; cbn [truthy negb String.eqb Ascii.eqb app];
    try match goal with
      | |- context [String.eqb (String ?c ?s) ""] =>
          change (String.eqb (String c s) "") with false
      end;
    cbn [negb app];
    run_update Hon; integer_keys.
Qed.

Lemma first_rewritten (n : Z) (f : User.t -> User.t) (l : list User.t) :
  (forall r, User.id (f r) = User.id r) ->
  hd_error
    (map user_json
       (filter (fun r => User.id r =? n)
          (map (fun r => if User.id r =? n then f r else r) l)))
  = option_map (fun r => user_json (f r)) (find (fun r => User.id r =? n) l).
Proof.
  intro Hid. induction l as [| x rest IH]; simpl; [reflexivity |].
  destruct (User.id x =? n) eqn:Hx; simpl.
  - now rewrite Hid, Hx.
  - now rewrite Hx.
Qed.

Lemma find_fresh (n : Z) (l : list User.t) (new : User.t) :
  Forall (fun r => User.id r < n) l ->
  User.id new = n ->
  find (fun r => User.id r =? n) (l ++ [new]) = Some new.
Proof.
  intros Hl Hnew. induction Hl as [| x rest Hx Hrest IH]; simpl.
  - now rewrite Hnew, Z.eqb_refl.
  - destruct (Z.eqb_spec (User.id x) n); [lia | exact IH].
Qed.

Section Effects.
Context {J : Jsonwebtoken}.
Variable JWT_SECRET : string.
Variable now : Z.

(** The owner of the account [n] at the path id that denotes [n]. *)
Definition owner_of (req : Request) (n : Z) : Prop :=
  authenticateToken JWT_SECRET now (headers_authorization req) = Next (of_Z n)
  /\ denotes (params_id req) n.

Lemma owner_passes (req : Request) (n : Z) :
  owner_of req n ->
  authenticateToken JWT_SECRET now (headers_authorization req)
  = Next (Finite (inject_Z n))
  /\ validateUserId (params_id req) = Next tt
  /\ Number (params_id req) = Finite (inject_Z n).
Proof.
  intros [Hauth Hden].
  destruct (denotes_Number _ _ Hden) as [HN Hpos].
  pose proof (denotes_valid _ _ Hden) as Hvalid.
  destruct Hden as [_ Hhi].
  rewrite (of_Z_exact n (conj Hpos Hhi)) in Hauth. tauto.
Qed.

Lemma GET_users_id_by_integer (req : Request) (db : Db) (n : Z) :
  denotes (params_id req) n ->
  online db = true ->
  GET_users_id req db
  = (Sent match find (fun r => User.id r =? n) (users db) with
          | Some u => json_reply 200 (user_json u)
          | None => not_found
          end,
     db).
Proof.
  intros Hden Hon.
  destruct (denotes_Number _ _ Hden) as [HN _].
  unfold GET_users_id, through. rewrite (denotes_valid _ _ Hden).
  unfold GET_users_id_handler. run_handler. rewrite HN.
  rewrite (select_user_by_integer n db Hon). cbv beta iota.
  rewrite <- hd_filter_find.
  now destruct (filter (fun r => User.id r =? n) (users db)).
Qed.

(** GET /users/:id for an id that denotes [n]: 200 with the first stored
    row whose id is [n], 404 "User not found" when there is none, and 500
    when the storage does not answer. *)
Theorem GET_user_by_id_outcomes (req : Request) (db : Db) (n : Z) :
  denotes (params_id req) n ->
  GET_users_id req db
  = (Sent (if online db then
             match find (fun r => User.id r =? n) (users db) with
             | Some u => json_reply 200 (user_json u)
             | None => not_found
             end
           else internal_error),
     db).
Proof.
  intro Hden. destruct (online db) eqn:Hon.
  - now apply GET_users_id_by_integer.
  - unfold GET_users_id, through. rewrite (denotes_valid _ _ Hden).
    now apply GET_users_id_handler_offline.
Qed.

(** A user created by POST /users is the one GET /users/:id returns for the
    new id: the 201 answer carries the id the storage assigned and the
    username and email of the body, and the stored row has those and no
    password. (Stored ids are below the counter of the table.) *)
Theorem created_user_can_be_read (req lookup : Request) (db : Db) :
  validateRequiredUserData (req_body req) = Next tt ->
  online db = true ->
  Forall (fun r => User.id r < next_id db) (users db) ->
  denotes (params_id lookup) (next_id db) ->
  exists u e,
    field "username" req = Some (JStr u)
    /\ field "email" req = Some (JStr e)
    /\ fst (POST_users req db)
       = Sent (json_reply 201
                 (JObj [("id", int_json (next_id db));
                        ("username", JStr u);
                        ("email", JStr e)]))
    /\ fst (GET_users_id lookup (snd (POST_users req db)))
       = Sent (json_reply 200
                 (JObj [("id", int_json (next_id db));
                        ("username", JStr u);
                        ("email", JStr e);
                        ("password", JNull)])).
Proof.
  intros Hv Hon Hids Hden.
  destruct (required_body _ Hv) as (fields & u & e & Hb & Hu & He).
  assert (Hfu : field "username" req = Some (JStr u))
    by (unfold field; now rewrite Hb).
  assert (Hfe : field "email" req = Some (JStr e))
    by (unfold field; now rewrite Hb).
  assert (Hpost : POST_users req db
                  = (Sent (json_reply 201
                             (JObj [("id", int_json (next_id db));
                                    ("username", JStr u);
                                    ("email", JStr e)])),
                     mkDb (users db ++ [User.mk (next_id db) u e None])
                       (posts db) (next_id db + 1) (online db))).
  { unfold POST_users, through. rewrite Hv. unfold POST_users_handler.
    rewrite (destructure_object req fields Hb), Hfu, Hfe. run_handler.
    now rewrite (insert_user u e db Hon). }
  exists u, e. rewrite Hpost. cbn [fst snd].
  repeat split; try assumption.
  rewrite (GET_users_id_by_integer lookup _ (next_id db) Hden) by exact Hon.
  cbn [fst users].
  now rewrite (find_fresh (next_id db) (users db)
                 (User.mk (next_id db) u e None) Hids eq_refl).
Qed.

(** PUT /users/:id by the owner with a valid body: every row whose id is
    the path id gets the username and email of the body and keeps its id
    and password, every other row, the posts and the id counter stay as they
    are, and the answer is 200 with [id], [username] and [email]; when no
    row has that id the answer is 404 and nothing changes. *)
Theorem PUT_replaces_username_and_email (req : Request) (db : Db) (n : Z) :
  owner_of req n ->
  validateRequiredUserData (req_body req) = Next tt ->
  online db = true ->
  exists u e,
    field "username" req = Some (JStr u)
    /\ field "email" req = Some (JStr e)
    /\ PUT_users_id JWT_SECRET now req db
       = if existsb (fun r => User.id r =? n) (users db) then
           (Sent (json_reply 200
                    (JObj [("id", int_json n);
                           ("username", JStr u);
                           ("email", JStr e)])),
            rewrite_user n
              (fun r => User.mk (User.id r) u e (User.password r)) db)
         else (Sent not_found, db).
Proof.
  intros Hown Hv Hon.
  destruct (owner_passes req n Hown) as (Hauth & Hvalid & HN).
  destruct (required_body _ Hv) as (fields & u & e & Hb & Hu & He).
  assert (Hfu : field "username" req = Some (JStr u))
    by (unfold field; now rewrite Hb).
  assert (Hfe : field "email" req = Some (JStr e))
    by (unfold field; now rewrite Hb).
  exists u, e. repeat split; try assumption.
  unfold PUT_users_id, through. rewrite Hauth, Hvalid, Hv.
  unfold PUT_users_id_handler.
  rewrite (destructure_object req fields Hb), Hfu, Hfe. run_handler.
  rewrite HN, own_account, (update_both u e n db Hon). cbv beta iota.
  rewrite count_none.
  destruct (existsb (fun r => User.id r =? n) (users db)) eqn:Hex;
    cbn [negb]; [reflexivity |].
  now rewrite rewrite_user_none.
Qed.

(** PATCH /users/:id by the owner with a valid body that supplies a
    non-empty username or email: in every row whose id is the path id the
    supplied non-empty fields replace the stored ones, the other column, the
    id and the password are kept, every other row stays as it is, and the
    answer is 200 with the stored row after the update, all its columns
    included; when no row has that id the answer is 404 and nothing
    changes. *)
Theorem PATCH_changes_supplied_fields (req : Request) (db : Db) (n : Z) :
  owner_of req n ->
  validatePartialUserData (req_body req) = Next tt ->
  truthy (field "username" req) || truthy (field "email" req) = true ->
  online db = true ->
  PATCH_users_id JWT_SECRET now req db
  = if existsb (fun r => User.id r =? n) (users db) then
      (Sent {| status := 200;
               body :=
                 option_map
                   (fun r =>
                      user_json
                        (patched (field "username" req) (field "email" req) r))
                   (find (fun r => User.id r =? n) (users db)) |},
       rewrite_user n (patched (field "username" req) (field "email" req)) db)
    else (Sent not_found, db).
Proof.
  intros Hown Hv Hsome Hon.
  destruct (owner_passes req n Hown) as (Hauth & Hvalid & HN).
  pose proof Hv as Hv'. apply validatePartialUserData_accepts_iff in Hv'.
  destruct Hv' as (fields & Hb & Hu & He).
  assert (Hfu : field "username" req = assoc "username" fields)
    by (unfold field; now rewrite Hb).
  assert (Hfe : field "email" req = assoc "email" fields)
    by (unfold field; now rewrite Hb).
  rewrite <- Hfu in Hu. rewrite <- Hfe in He.
  unfold PATCH_users_id, through. rewrite Hauth, Hvalid, Hv.
  unfold PATCH_users_id_handler.
  rewrite (destructure_object req fields Hb). run_handler.
  rewrite HN, own_account, (patch_statement _ _ n db Hu He Hsome Hon).
  cbv beta iota. rewrite count_none.
  destruct (existsb (fun r => User.id r =? n) (users db)) eqn:Hex;
    cbn [negb]; [| now rewrite rewrite_user_none].
  rewrite (select_user_by_integer n (rewrite_user n _ db) Hon).
  cbv beta iota. unfold rewrite_user at 1. cbn [users].
  now rewrite first_rewritten.
Qed.

(** DELETE /users/:id by the owner of an account no post refers to: the
    rows whose id is the path id are removed, the other rows keep their
    order, the posts stay, and the answer is 204 without a body; when no
    row has that id the answer is 404 and nothing changes. *)
Theorem DELETE_removes_the_account (req : Request) (db : Db) (n : Z) :
  owner_of req n ->
  existsb (fun p => Post.user_id p =? n) (posts db) = false ->
  online db = true ->
  DELETE_users_id JWT_SECRET now req db
  = if existsb (fun r => User.id r =? n) (users db) then
      (Sent {| status := 204; body := None |},
       mkDb (filter (fun r => negb (User.id r =? n)) (users db)) (posts db)
         (next_id db) (online db))
    else (Sent not_found, db).
Proof.
  intros Hown Hposts Hon.
  destruct (owner_passes req n Hown) as (Hauth & Hvalid & HN).
  unfold DELETE_users_id, through. rewrite Hauth, Hvalid.
  unfold DELETE_users_id_handler. run_handler.
  rewrite HN, own_account, (delete_unreferenced n db Hon Hposts).
  cbv beta iota. rewrite count_none.
  destruct (existsb (fun r => User.id r =? n) (users db)) eqn:Hex;
    cbn [negb]; [reflexivity |].
  rewrite (filter_none_hit _ _ Hex). now rewrite Db_eta.
Qed.

End Effects.

(** ** The effects on the sample data *)

Definition alice_bearer : option string :=
  Some ("Bearer " ++ generateToken Sample.secret 1000 1).

Definition bob_bearer : option string :=
  Some ("Bearer " ++ generateToken Sample.secret 1000 2).

Lemma alice_owns_1 (body : option json) :
  owner_of Sample.secret 2000 (Sample.request alice_bearer "1" body) 1.
Proof.
  split; [reflexivity | split; reflexivity].
Defined.

Lemma bob_owns_2 (body : option json) :
  owner_of Sample.secret 2000 (Sample.request bob_bearer "2" body) 2.
Proof.
  split; [reflexivity | split; reflexivity].
Defined.

Lemma GET_user_by_id_outcomes_witness :
  GET_users_id (Sample.request None "2" None) Sample.db
  = (Sent (json_reply 200 (user_json Sample.bob)), Sample.db).
Proof.
  apply (GET_user_by_id_outcomes (Sample.request None "2" None) Sample.db 2).
  split; reflexivity.
Defined.

Lemma created_user_can_be_read_witness :
  let req :=
    Sample.request None ""
      (Some (JObj [("username", JStr "carol");
                   ("email", JStr "carol@example.com")])) in
  exists u e,
    field "username" req = Some (JStr u)
    /\ field "email" req = Some (JStr e)
    /\ fst (POST_users req Sample.db)
       = Sent (json_reply 201
                 (JObj [("id", int_json 3);
                        ("username", JStr u);
                        ("email", JStr e)]))
    /\ fst (GET_users_id (Sample.request None "3" None)
              (snd (POST_users req Sample.db)))
       = Sent (json_reply 200
                 (JObj [("id", int_json 3);
                        ("username", JStr u);
                        ("email", JStr e);
                        ("password", JNull)])).
Proof.
  apply (created_user_can_be_read
           (Sample.request None ""
              (Some (JObj [("username", JStr "carol");
                           ("email", JStr "carol@example.com")])))
           (Sample.request None "3" None) Sample.db).
  - reflexivity.
  - reflexivity.
  - repeat constructor.
  - split; reflexivity.
Defined.

Lemma PUT_replaces_username_and_email_witness :
  let req :=
    Sample.request alice_bearer "1"
      (Some (JObj [("username", JStr "alicia");
                   ("email", JStr "alicia@example.com")])) in
  exists u e,
    field "username" req = Some (JStr u)
    /\ field "email" req = Some (JStr e)
    /\ PUT_users_id Sample.secret 2000 req Sample.db
       = if existsb (fun r => User.id r =? 1) (users Sample.db) then
           (Sent (json_reply 200
                    (JObj [("id", int_json 1);
                           ("username", JStr u);
                           ("email", JStr e)])),
            rewrite_user 1
              (fun r => User.mk (User.id r) u e (User.password r)) Sample.db)
         else (Sent not_found, Sample.db).
Proof.
  apply (PUT_replaces_username_and_email Sample.secret 2000).
  - apply alice_owns_1.
  - reflexivity.
  - reflexivity.
Defined.

Lemma PATCH_changes_supplied_fields_witness :
  let req :=
    Sample.request alice_bearer "1"
      (Some (JObj [("username", JStr "alicia"); ("email", JStr "")])) in
  PATCH_users_id Sample.secret 2000 req Sample.db
  = (Sent (json_reply 200
             (user_json
                (User.mk 1 "alicia" "alice@example.com"
                   (User.password Sample.alice)))),
     mkDb
       [User.mk 1 "alicia" "alice@example.com" (User.password Sample.alice);
        Sample.bob]
       (posts Sample.db) 3 true).
Proof.
  apply (PATCH_changes_supplied_fields Sample.secret 2000
           (Sample.request alice_bearer "1"
              (Some (JObj [("username", JStr "alicia"); ("email", JStr "")])))
           Sample.db 1).
  - apply alice_owns_1.
  - reflexivity.
  - reflexivity.
  - reflexivity.
Defined.

Lemma DELETE_removes_the_account_witness :
  DELETE_users_id Sample.secret 2000 (Sample.request bob_bearer "2" None)
    Sample.db
  = (Sent {| status := 204; body := None |},
     mkDb [Sample.alice] (posts Sample.db) 3 true).
Proof.
  apply (DELETE_removes_the_account Sample.secret 2000
           (Sample.request bob_bearer "2" None) Sample.db 2).
  - apply bob_owns_2.
  - reflexivity.
  - reflexivity.
Defined.

(** ** PATCH with a complete body *)



Section CompleteBody.
Context {J : Jsonwebtoken}.
Variable JWT_SECRET : string.
Variable now : Z.


End CompleteBody.


(** ** What the post listings hold *)

(** GET /users/:id/posts for an id that [Number] reads as the integer [n]
    ("7", " 7 ", "0x7" or "7.0" for 7): the answer is 200 with exactly the
    stored posts whose [user_id] is [n], each once, the newest first. *)
Theorem user_posts_listing (req : Request) (db : Db) (n : Z) :
  Number (params_id req) = Finite (inject_Z n) ->
  online db = true ->
  exists rows,
    GET_users_id_posts req db
    = (Sent (json_reply 200 (JArr (map post_json rows))), db)
    /\ Sorted (not_older Post.created_at) rows
    /\ Permutation (filter (fun p => Post.user_id p =? n) (posts db)) rows.
Proof.
  intros HN Hon.
  exists (order_by_desc Post.created_at
            (filter (fun p => Post.user_id p =? n) (posts db))).
  split; [| split].
  - rewrite GET_users_id_posts_online; [| now rewrite HN | exact Hon].
    rewrite HN.
    replace (filter (fun p => key_is (Finite (inject_Z n)) (Post.user_id p))
               (posts db))
      with (filter (fun p => Post.user_id p =? n) (posts db));
      [reflexivity |].
    apply filter_ext. intro. symmetry. apply key_is_integer.
  - apply order_by_desc_Sorted.
  - apply order_by_desc_Permutation.
Qed.

Lemma user_posts_listing_witness :
  exists rows,
    GET_users_id_posts (Sample.request None " 0x1 " None) Sample.db
    = (Sent (json_reply 200 (JArr (map post_json rows))), Sample.db)
    /\ Sorted (not_older Post.created_at) rows
    /\ Permutation
         (filter (fun p => Post.user_id p =? 1) (posts Sample.db)) rows.
Proof.
  apply (user_posts_listing (Sample.request None " 0x1 " None) Sample.db 1);
    reflexivity.
Defined.

(** With user ids unique, the one user whose id is that of a listed user. *)
Lemma filter_unique (us : list User.t) (u : User.t) :
  NoDup (map User.id us) -> In u us ->
  filter (fun x => User.id x =? User.id u) us = [u].
Proof.
  induction us as [| x rest IH]; simpl; [contradiction |].
  intros Hnd Hin. inversion Hnd as [| ? ? Hx Hrest]; subst.
  destruct Hin as [-> | Hin].
  - rewrite Z.eqb_refl. f_equal.
    assert (Hnone : forall l, ~ In (User.id u) (map User.id l) ->
                    filter (fun x => User.id x =? User.id u) l = []).
    { induction l as [| y l IHl]; simpl; [reflexivity |].
      intro Hno. destruct (Z.eqb_spec (User.id y) (User.id u)) as [E | _].
      - contradiction Hno. now left.
      - apply IHl. tauto. }
    now apply Hnone.
  - destruct (Z.eqb_spec (User.id x) (User.id u)) as [E | _].
    + contradiction Hx. rewrite E. now apply in_map.
    + now apply IH.
Qed.

(** The author columns of a joined row are those of the user the post
    refers to. *)
Definition authored (us : list User.t) (r : PostWithUser.t) : Prop :=
  exists u,
    In u us
    /\ User.id u = Post.user_id (PostWithUser.post r)
    /\ PostWithUser.username r = User.username u
    /\ PostWithUser.email r = User.email u.

Lemma join_users_complete (us : list User.t) (ps : list Post.t) :
  NoDup (map User.id us) ->
  (forall p, In p ps -> exists u, In u us /\ User.id u = Post.user_id p) ->
  map PostWithUser.post (join_users us ps) = ps
  /\ Forall (authored us) (join_users us ps).
Proof.
  intros Hnd Href. unfold join_users.
  induction ps as [| p rest IH]; simpl; [split; constructor |].
  destruct (Href p (or_introl eq_refl)) as (u & Hin & Hid).
  destruct IH as [IHmap IHall]; [intros q Hq; apply Href; now right |].
  rewrite <- Hid, (filter_unique us u Hnd Hin). simpl.
  split; [now rewrite IHmap |].
  constructor; [| exact IHall].
  exists u. simpl. now rewrite Hid.
Qed.

(** GET /posts when user ids are unique and every post refers to a stored
    user: the answer is 200 with one entry for each stored post, the newest
    first, each carrying the username and email of the user its [user_id]
    names. *)
Theorem all_posts_listing (req : Request) (db : Db) :
  online db = true ->
  NoDup (map User.id (users db)) ->
  (forall p, In p (posts db) ->
     exists u, In u (users db) /\ User.id u = Post.user_id p) ->
  exists rows,
    GET_posts req db
    = (Sent (json_reply 200 (JArr (map post_with_user_json rows))), db)
    /\ Sorted (not_older PostWithUser.created_at) rows
    /\ Permutation (posts db) (map PostWithUser.post rows)
    /\ Forall (authored (users db)) rows.
Proof.
  intros Hon Hnd Href.
  destruct (GET_posts_descending req db Hon) as (rows & Hget & Hsorted & Hperm).
  destruct (join_users_complete (users db) (posts db) Hnd Href)
    as [Hmap Hall].
  exists rows. repeat split; try assumption.
  - rewrite <- Hmap. now apply Permutation_map.
  - now apply (Permutation_Forall Hperm).
Qed.

Lemma all_posts_listing_witness :
  exists rows,
    GET_posts (Sample.request None "" None) Sample.db
    = (Sent (json_reply 200 (JArr (map post_with_user_json rows))), Sample.db)
    /\ Sorted (not_older PostWithUser.created_at) rows
    /\ Permutation (posts Sample.db) (map PostWithUser.post rows)
    /\ Forall (authored (users Sample.db)) rows.
Proof.
  apply (all_posts_listing (Sample.request None "" None) Sample.db).
  - reflexivity.
  - repeat constructor; simpl; intuition discriminate.
  - intros p [<- | [<- | []]]; exists Sample.alice; split;
      try reflexivity; now left.
Defined.

Lemma key_is_same (key : number) (k k' : Z) :
  key_is key k = true -> (k =? k') = key_is key k'.
Proof.
  destruct key as [| s | q]; try discriminate. simpl. intro Hk.
  apply Qeq_bool_iff in Hk.
  destruct (Z.eqb_spec k k') as [<- | Hne].
  - symmetry. now apply Qeq_bool_iff.
  - destruct (Qeq_bool q (inject_Z k')) eqn:Hq; [| reflexivity].
    apply Qeq_bool_iff in Hq. rewrite Hk in Hq.
    unfold Qeq in Hq. simpl in Hq. lia.
Qed.

Lemma flat_map_optional {A B : Type} (c : A -> bool) (g : A -> B)
  (l : list A) :
  flat_map (fun x => if c x then [g x] else []) l = map g (filter c l).
Proof.
  induction l as [| x rest IH]; simpl; [reflexivity |].
  destruct (c x); simpl; now rewrite IH.
Qed.

(** GET /users/:id/posts-with-user, when the storage answers: if exactly
    one stored user has the id, the answer holds exactly the stored posts
    whose [user_id] is that id, the posts GET /users/:id/posts lists, each
    once and in whatever order the storage returns them, each with that
    user's username and email; if no stored user has the id the list is
    empty, whatever posts are stored. *)
Theorem posts_with_user_listing (req : Request) (db : Db) :
  online db = true ->
  let key := Number (params_id req) in
  let found := filter (fun u => key_is key (User.id u)) (users db) in
  (forall u, found = [u] ->
     exists rows,
       GET_users_id_posts_with_user req db
       = (Sent (json_reply 200 (JArr (map post_with_user_json rows))), db)
       /\ Permutation (map PostWithUser.post rows)
            (filter (fun p => key_is key (Post.user_id p)) (posts db))
       /\ Forall
            (fun r =>
               PostWithUser.username r = User.username u
               /\ PostWithUser.email r = User.email u)
            rows)
  /\ (found = [] ->
      GET_users_id_posts_with_user req db
      = (Sent (json_reply 200 (JArr [])), db)).
Proof.
  intro Hon. cbv zeta. rewrite (GET_users_id_posts_with_user_online req db Hon).
  split.
  - intros u Hu. rewrite Hu.
    assert (Hkey : key_is (Number (params_id req)) (User.id u) = true).
    { assert (Hin : In u (filter
                           (fun u => key_is (Number (params_id req)) (User.id u))
                           (users db))) by (rewrite Hu; now left).
      now apply filter_In in Hin. }
    assert (Hjoin : join_users [u] (posts db)
                    = map (fun p =>
                             PostWithUser.mk p (User.username u) (User.email u))
                        (filter
                           (fun p => key_is (Number (params_id req))
                                       (Post.user_id p))
                           (posts db))).
    { unfold join_users. simpl.
      rewrite <- (flat_map_optional
                    (fun p => key_is (Number (params_id req)) (Post.user_id p))
                    (fun p =>
                       PostWithUser.mk p (User.username u) (User.email u))).
      apply flat_map_ext. intro p.
      rewrite (key_is_same _ _ (Post.user_id p) Hkey).
      now destruct (key_is (Number (params_id req)) (Post.user_id p)). }
    eexists. split; [reflexivity |]. rewrite Hjoin. split.
    + rewrite map_map. simpl. now rewrite map_id.
    + apply Forall_forall. intros r Hr. apply in_map_iff in Hr.
      destruct Hr as (p & <- & _). now split.
  - intros ->. unfold join_users. simpl.
    repeat f_equal. induction (posts db); simpl; [reflexivity | assumption].
Qed.

Lemma posts_with_user_listing_witness :
  (exists rows,
     GET_users_id_posts_with_user (Sample.request None "1" None) Sample.db
     = (Sent (json_reply 200 (JArr (map post_with_user_json rows))), Sample.db)
     /\ Permutation (map PostWithUser.post rows)
          [Sample.first_post; Sample.second_post]
     /\ Forall
          (fun r =>
             PostWithUser.username r = "alice"
             /\ PostWithUser.email r = "alice@example.com")
          rows)
  /\ GET_users_id_posts_with_user (Sample.request None "9" None) Sample.db
     = (Sent (json_reply 200 (JArr [])), Sample.db).
Proof.
  destruct (posts_with_user_listing (Sample.request None "1" None) Sample.db
              eq_refl) as [Hone _].
  destruct (posts_with_user_listing (Sample.request None "9" None) Sample.db
              eq_refl) as [_ Hnone].
  split.
  - exact (Hone Sample.alice eq_refl).
  - exact (Hnone eq_refl).
Defined.

(** ** Ownership, on the ids *)


(** From [2^53] on two ids can be one number: the bound on the ids below is
    needed. *)
Lemma ids_beyond_2_53_collide :
  9007199254740992 <> 9007199254740993
  /\ strict_neq (of_Z 9007199254740992) (Number "9007199254740993") = false.
Proof.
  split; [discriminate | vm_compute; reflexivity].
Qed.

Section OwnershipById.
Context {J : Jsonwebtoken}.
Variable JWT_SECRET : string.
Variable now : Z.


End OwnershipById.


(** On an array the length checks run after the type message. *)
Example length_checks_run_on_arrays :
  validatePartialUserData (Some (JObj [("username", JArr [])]))
  = Reply
      (validation_failed
         ["Invalid input: expected string, received array";
          "Username must be at least 2 characters"]).
Proof. reflexivity. Qed.
